(** * query-string-parser: the [Parser] of [src/helpers/parser.ts]

    A shallow embedding of [Parser.extract] and [Parser.transform], the
    tokenizer and the value coercer of the filter-query grammar
    [type:field:operator:value], and of the query builder of [src/app.js]
    that consumes their result, followed by the properties of the
    specification that are settled on them and by further properties of the
    code.

    Conventions of the embedding.
    - A JavaScript string is a [string]; [str.charAt(i)] enumerates its
      characters from left to right.  The structural characters are ASCII,
      every other character is pushed and joined back untouched.
    - The instance fields of the class ([opts], [buffer], [filter], [stack],
      [chr], [escaped]) are the record [Parser]; a method is a function from
      the instance to an outcome and the instance it leaves behind.
    - [throw new Error(msg)] is [Throw e], one constructor of [Error] per
      message of the source.
    - Unary plus on a string, [Date.parse] and [isNaN] belong to the
      JavaScript engine: they are the interface [Host]. *)

From Stdlib Require Import String Ascii List Bool ZArith Lia.
Import ListNotations.
Local Open Scope string_scope.
Local Open Scope list_scope.

Reserved Notation "x <- m ;; k"
  (at level 61, m at next level, right associativity).
Reserved Notation "m ;; k" (at level 61, right associativity).

(** ** The registries *)

(** Modelled from the spec: [enums/data-type.enum.ts] is not among the
    sources.  The declared types and their tags are those of section 6 of the
    specification ([s], [b], [n], [d], [v]); the compiled enumeration in
    [dist/enums/type.enum.js] lists the same five, in this order. *)
Module DataType.

Inductive t : Type := string | boolean | number | date | void.

Definition value (x : t) : String.string :=
  match x with
  | string => "s" | boolean => "b" | number => "n" | date => "d" | void => "v"
  end.

Definition values : list t := [string; boolean; number; date; void].

End DataType.

(** [enums/operator.enum.ts], in declaration order ([is] and [in] are
    reserved words here, hence [is_] and [in_]). *)
Module Operator.

Inductive t : Type :=
  | gt | gte | eq | ne | is_ | isNot | lt | lte
  | regex | notRegex | between | notBetween | in_ | notIn.

Definition value (o : t) : string :=
  match o with
  | gt => ">" | gte => ">=" | eq => "=" | ne => "!=" | is_ => "!!"
  | isNot => "!" | lt => "<" | lte => "<=" | regex => "~"
  | notRegex => "!~" | between => "><" | notBetween => ">!<"
  | in_ => "<>" | notIn => "<!>"
  end.

Definition values : list t :=
  [gt; gte; eq; ne; is_; isNot; lt; lte; regex; notRegex; between;
   notBetween; in_; notIn].

End Operator.

(** [a === target] on enumeration members, where [target] may be
    [undefined]: members are compared by their string values. *)
Definition op_is (a : Operator.t) (target : option Operator.t) : bool :=
  match target with
  | Some b => Operator.value a =? Operator.value b
  | None => false
  end.

(** Modelled from the spec: [interfaces/parser-options.interface.ts] is not
    among the sources; section 6 gives the single key [allowedKeys]. *)
Record ParserOptions : Type := { allowedKeys : list string }.

(** ** Errors

    One constructor per [throw] of [parser.ts], carrying what the message
    interpolates; [JSONSyntaxError] is the [SyntaxError] of [JSON.parse]. *)
Inductive Error : Type :=
  | UnbalancedBrackets
  | InvalidType
  | KeyNotAllowed (field : string)
  | InvalidOperator
  | UnexpectedCharacter
  | InvalidEscapedCharacter (chr : ascii)
  | MissingOperator (type : DataType.t)
  | UnexpectedOperatorForString (operator : option Operator.t)
  | UnexpectedOperatorForBoolean (operator : option Operator.t)
  | UnexpectedValueForBoolean (value : string)
  | InvalidValueTypes
  | ExpectingOneNumeric (given : nat)
  | ExpectingOneDate (given : nat)
  | WrongNumberOfArguments (expects given : nat)
  | InvalidOperatorForKey (operator : option Operator.t) (field : option string)
  | InvalidVoidOperator (value : string)
  | JSONSyntaxError (text : string)
  | JSTypeError.

Inductive Outcome (A : Type) : Type :=
  | Return (a : A)
  | Throw (e : Error).
Arguments Return {A} a.
Arguments Throw {A} e.

(** ** Strings *)

(** [stack.join('')] for a stack of one-character strings. *)
Definition join (stack : list ascii) : string := string_of_list_ascii stack.

(** [text.split(sep)] for a one-character separator: the empty text splits
    into one empty token, and a separator at either end leaves an empty
    token there. *)
Fixpoint split (sep : ascii) (text : string) : list string :=
  match text with
  | EmptyString => [EmptyString]
  | String c rest =>
      if Ascii.eqb c sep then EmptyString :: split sep rest
      else match split sep rest with
           | tok :: toks => String c tok :: toks
           | [] => [String c EmptyString]
           end
  end.

(** [text.split(delimiter)] where [delimiter] may be [undefined]: without a
    separator the whole text is the only token. *)
Definition split_by (delimiter : option ascii) (text : string) : list string :=
  match delimiter with
  | Some sep => split sep text
  | None => [text]
  end.

(** ** The engine *)

(** What [transform] asks of the JavaScript engine: [ToNumber s] is [+s],
    [Date_parse s] is [Date.parse(s)] (a time value, or NaN), [isNaN] is the
    global predicate. *)
Class Host : Type := {
  Number : Type;
  ToNumber : string -> Number;
  Date_parse : string -> Number;
  isNaN : Number -> bool
}.

Section Parser.

Context {host : Host}.

(** ** Filter descriptors *)

(** The shapes [value] takes: the raw text, the list of a split group, a
    boolean, one number, a list of numbers (or of time values), [null]. *)
Inductive Value : Type :=
  | VString (s : string)
  | VStrings (l : list string)
  | VBoolean (b : bool)
  | VNumber (n : Number)
  | VNumbers (l : list Number)
  | VNull.

(** The keys [extract] sets on [this.filter]; [multi] absent is [false]. *)
Record Header : Type := {
  type : option DataType.t;
  field : option string;
  operator : option Operator.t;
  multi : bool
}.

(** [{ ...this.filter, delimiter, value }]. *)
Record FilterQuery : Type := {
  head : Header;
  delimiter : option ascii;
  value : Value
}.

Definition empty_filter : Header :=
  {| type := None; field := None; operator := None; multi := false |}.

Definition set_type (t : option DataType.t) (f : Header) : Header :=
  {| type := t; field := field f; operator := operator f; multi := multi f |}.
Definition set_field (k : option string) (f : Header) : Header :=
  {| type := type f; field := k; operator := operator f; multi := multi f |}.
Definition set_operator (o : option Operator.t) (f : Header) : Header :=
  {| type := type f; field := field f; operator := o; multi := multi f |}.
Definition set_multi (m : bool) (f : Header) : Header :=
  {| type := type f; field := field f; operator := operator f; multi := m |}.

Definition with_value (v : Value) (q : FilterQuery) : FilterQuery :=
  {| head := head q; delimiter := delimiter q; value := v |}.

(** JavaScript truthiness of the header keys: an unset key and the empty
    string are falsy. *)
Definition truthy (s : option string) : bool :=
  match s with
  | Some EmptyString | None => false
  | Some _ => true
  end.

(** Truthiness of a key that holds an enumeration member when it is set:
    the members are non-empty strings. *)
Definition is_set {A : Type} (o : option A) : bool :=
  match o with Some _ => true | None => false end.

(** ** [transform] *)

Definition isRangeTypeOperator (op : option Operator.t) : bool :=
  op_is Operator.between op || op_is Operator.notBetween op.

Definition hasOneOfRangeTypeOperator (op : option Operator.t) : bool :=
  op_is Operator.eq op || op_is Operator.ne op || op_is Operator.gt op ||
  op_is Operator.gte op || op_is Operator.lt op || op_is Operator.lte op ||
  op_is Operator.in_ op || op_is Operator.notIn op.

Definition forStringTypeOperator (target : option Operator.t) : bool :=
  existsb (fun op => op_is op target)
    [Operator.eq; Operator.ne; Operator.in_; Operator.notIn;
     Operator.regex; Operator.notRegex].

(** [JSON.parse] on the texts that reach it.  [transform] calls it only
    behind a guard, on one of [true], [false], [null], [undefined]; the first
    three are JSON literals, [undefined] is not JSON text and raises a
    [SyntaxError]. *)
Definition JSON_parse (text : string) : Outcome Value :=
  if text =? "true" then Return (VBoolean true)
  else if text =? "false" then Return (VBoolean false)
  else if text =? "null" then Return VNull
  else Throw (JSONSyntaxError text).

(** The range/operator check shared, line for line, by the number and the
    date branch, and the descriptor returned after it. *)
Definition check_group (filter : FilterQuery) (vals : list Number)
  : Outcome FilterQuery :=
  let op := operator (head filter) in
  if isRangeTypeOperator op then
    if negb (length vals =? 2)%nat
    then Throw (WrongNumberOfArguments 2 (length vals))
    else Return (with_value (VNumbers vals) filter)
  else if negb (hasOneOfRangeTypeOperator op)
  then Throw (InvalidOperatorForKey op (field (head filter)))
  else Return (with_value (VNumbers vals) filter).

(** [DataType.x === filter.type]. *)
Definition type_is (t : DataType.t) (filter : FilterQuery) : bool :=
  match type (head filter) with
  | Some t' => DataType.value t =? DataType.value t'
  | None => false
  end.

(** [extract] always calls [transform] on a descriptor whose value is the
    joined stack, a string; on any other value the string methods the body
    uses are missing, a [TypeError]. *)
Definition transform (filter : FilterQuery) : Outcome FilterQuery :=
  match value filter with
  | VString raw =>
    if type_is DataType.string filter then
      if negb (forStringTypeOperator (operator (head filter)))
      then Throw (UnexpectedOperatorForString (operator (head filter)))
      else if multi (head filter)
      then Return (with_value (VStrings (split_by (delimiter filter) raw)) filter)
      else Return filter
    else if type_is DataType.boolean filter then
      if negb (op_is Operator.eq (operator (head filter)))
         && negb (op_is Operator.ne (operator (head filter)))
      then Throw (UnexpectedOperatorForBoolean (operator (head filter)))
      else if negb (raw =? "true") && negb (raw =? "false")
      then Throw (UnexpectedValueForBoolean raw)
      else match JSON_parse raw with
           | Return v => Return (with_value v filter)
           | Throw e => Throw e
           end
    else if type_is DataType.number filter then
      let nums := map ToNumber (split_by (delimiter filter) raw) in
      if existsb isNaN nums then Throw InvalidValueTypes
      else if negb (multi (head filter)) then
        (* [nums.length !== 1] throws; otherwise [nums.pop()] is the
           only element *)
        match nums with
        | [n] => Return (with_value (VNumber n) filter)
        | _ => Throw (ExpectingOneNumeric (length nums))
        end
      else check_group filter nums
    else if type_is DataType.date filter then
      let dates := map Date_parse (split_by (delimiter filter) raw) in
      if existsb isNaN dates then Throw InvalidValueTypes
      else if negb (multi (head filter)) then
        if negb (length dates =? 1)%nat
        then Throw (ExpectingOneDate (length dates))
        else Return filter
      else check_group filter dates
    else if type_is DataType.void filter then
      if negb (op_is Operator.is_ (operator (head filter)))
         && negb (op_is Operator.isNot (operator (head filter)))
      then Throw (InvalidVoidOperator raw)
      else if negb (raw =? "null") && negb (raw =? "undefined")
      then Throw (UnexpectedValueForBoolean raw)
      else match JSON_parse raw with
           | Return v => Return (with_value v filter)
           | Throw e => Throw e
           end
    else Return filter
  | _ => Throw JSTypeError
  end.

(** ** The instance and its methods *)

Record Parser : Type := {
  opts : ParserOptions;
  buffer : list FilterQuery;
  filter : Header;
  stack : list ascii;
  chr : string;
  escaped : bool
}.

(** [private readonly defaults = { allowedKeys: ['*'] }]. *)
Definition defaults : ParserOptions := {| allowedKeys := ["*"] |}.

Definition set_opts (o : ParserOptions) (p : Parser) : Parser :=
  {| opts := o; buffer := buffer p; filter := filter p; stack := stack p;
     chr := chr p; escaped := escaped p |}.
Definition set_buffer (b : list FilterQuery) (p : Parser) : Parser :=
  {| opts := opts p; buffer := b; filter := filter p; stack := stack p;
     chr := chr p; escaped := escaped p |}.
Definition set_filter (f : Header) (p : Parser) : Parser :=
  {| opts := opts p; buffer := buffer p; filter := f; stack := stack p;
     chr := chr p; escaped := escaped p |}.
Definition set_stack (s : list ascii) (p : Parser) : Parser :=
  {| opts := opts p; buffer := buffer p; filter := filter p; stack := s;
     chr := chr p; escaped := escaped p |}.
Definition set_chr (c : string) (p : Parser) : Parser :=
  {| opts := opts p; buffer := buffer p; filter := filter p; stack := stack p;
     chr := c; escaped := escaped p |}.
Definition set_escaped (e : bool) (p : Parser) : Parser :=
  {| opts := opts p; buffer := buffer p; filter := filter p; stack := stack p;
     chr := chr p; escaped := e |}.

(** A method body: it reads and writes the instance, and returns or throws.
    A throw keeps the instance as the body left it. *)
Definition M (A : Type) : Type := Parser -> Outcome A * Parser.

Definition ret {A : Type} (a : A) : M A := fun p => (Return a, p).
Definition throw {A : Type} (e : Error) : M A := fun p => (Throw e, p).
Definition bind {A B : Type} (m : M A) (k : A -> M B) : M B :=
  fun p => match m p with
           | (Return a, p') => k a p'
           | (Throw e, p') => (Throw e, p')
           end.
Definition gets {A : Type} (f : Parser -> A) : M A := fun p => (Return (f p), p).
Definition modify (f : Parser -> Parser) : M unit := fun p => (Return tt, f p).
Definition when (b : bool) (m : M unit) : M unit := if b then m else ret tt.

Notation "x <- m ;; k" := (bind m (fun x => k)).
Notation "m ;; k" := (bind m (fun _ => k)).

Definition reset : M unit :=
  modify (set_filter empty_filter) ;;
  modify (set_escaped false) ;;
  modify (set_chr "") ;;
  modify (set_stack []).

(** [allowedKeys.includes(x)]. *)
Definition includes (keys : list string) (x : string) : bool :=
  existsb (String.eqb x) keys.

Definition isValidKey (target : string) : M bool :=
  o <- gets opts ;;
  ret (includes (allowedKeys o) "*" || includes (allowedKeys o) target).

(** [Object.values(E).find(x => x === target)]. *)
Definition getFilterOperator (target : string) : option Operator.t :=
  find (fun op => Operator.value op =? target) Operator.values.

Definition getFilterType (target : string) : option DataType.t :=
  find (fun ty => DataType.value ty =? target) DataType.values.

Definition push (c : ascii) : M unit :=
  modify (fun p => set_stack (stack p ++ [c]) p).

(** [this.buffer.push(this.transform({ ...this.filter, delimiter, value:
    this.stack.join('') }))]; the delimiter key is given by the two closing
    brackets only. *)
Definition emit (delim : option ascii) : M unit :=
  fun p =>
    match transform {| head := filter p; delimiter := delim;
                       value := VString (join (stack p)) |} with
    | Return q => (Return tt, set_buffer (buffer p ++ [q]) p)
    | Throw e => (Throw e, p)
    end.

(** The branch of an unescaped [:]: the buffer goes to the first header key
    that is still falsy. *)
Definition colon : M unit :=
  f <- gets filter ;;
  when (multi f) (throw UnbalancedBrackets) ;;
  stk <- gets stack ;;
  (if negb (is_set (type f)) then
     let ty := getFilterType (join stk) in
     modify (set_filter (set_type ty f)) ;;
     when (negb (is_set ty)) (throw InvalidType)
   else if negb (truthy (field f)) then
     modify (set_filter (set_field (Some (join stk)) f)) ;;
     ok <- isValidKey (join stk) ;;
     when (negb ok) (throw (KeyNotAllowed (join stk)))
   else if negb (is_set (operator f)) then
     let op := getFilterOperator (join stk) in
     modify (set_filter (set_operator op f)) ;;
     when (negb (is_set op)) (throw InvalidOperator)
   else throw UnexpectedCharacter) ;;
  modify (set_stack []).

(** [!this.stack.length]. *)
Definition is_nil {A : Type} (l : list A) : bool :=
  match l with [] => true | _ => false end.

(** The body of the [for] loop of [extract], for the character [c]. *)
Definition step (c : ascii) : M unit :=
  modify (set_chr (String c "")) ;;
  esc <- gets escaped ;;
  if Ascii.eqb c ":" then
    (if negb esc then colon
     else (push c ;; modify (set_escaped false)))
  else if Ascii.eqb c "|" || Ascii.eqb c "," then
    (when esc (throw (InvalidEscapedCharacter c)) ;;
     stk <- gets stack ;;
     f <- gets filter ;;
     if negb (is_nil stk) && negb (multi f) then
       (match type f with
        | Some ty =>
            when (truthy (field f) && negb (is_set (operator f)))
                 (throw (MissingOperator ty))
        | None => ret tt
        end ;;
        emit None ;;
        reset)
     else if multi f then push c
     else ret tt)
  else if Ascii.eqb c "]" || Ascii.eqb c ")" then
    (when esc (throw (InvalidEscapedCharacter c)) ;;
     emit (Some (if Ascii.eqb c ")" then "|" else ","))%char ;;
     reset)
  else if Ascii.eqb c "[" || Ascii.eqb c "(" then
    (when esc (throw (InvalidEscapedCharacter c)) ;;
     modify (fun p => set_filter (set_multi true (filter p)) p) ;;
     modify (set_stack []))
  else if Ascii.eqb c "\" then modify (set_escaped true)
  else push c.

(** [for (let i = 0; i < str.length; i++) { ... }]. *)
Fixpoint scan (str : string) : M unit :=
  match str with
  | EmptyString => ret tt
  | String c rest => step c ;; scan rest
  end.

(** What follows the loop: the remaining characters of the stack. *)
Definition finish : M (list FilterQuery) :=
  stk <- gets stack ;;
  f <- gets filter ;;
  (if negb (is_nil stk) && (truthy (field f) || is_set (operator f)) then
     when (multi f) (throw UnbalancedBrackets) ;;
     emit None
   else ret tt) ;;
  gets buffer.

(** [{ ...this.defaults, ...options }]: the only key, [allowedKeys], is
    that of [options] when they are given. *)
Definition merged (options : option ParserOptions) : ParserOptions :=
  match options with
  | Some o => o
  | None => defaults
  end.

Definition extract (str : string) (options : option ParserOptions)
  : M (list FilterQuery) :=
  modify (set_buffer []) ;;
  modify (set_opts (merged options)) ;;
  reset ;;
  scan str ;;
  finish.

End Parser.

Arguments extract {host} str options p.
Arguments transform {host} filter.

Notation "x <- m ;; k" := (bind m (fun x => k)).
Notation "m ;; k" := (bind m (fun _ => k)).

(** ** An executable host

    The theorems below hold for every [Host].  To run the parser on concrete
    inputs this host answers on the texts the examples use, as ECMAScript
    does there: a run of decimal digits is its integer (exactly so below
    2^53), the empty text is 0,
    [YYYY-MM-DD] is midnight UTC of that day in milliseconds since the epoch;
    every other text is NaN (an engine accepts more: fractions, exponents,
    other date formats). *)
Module Sample.

Local Open Scope Z_scope.

Definition digit (c : ascii) : option Z :=
  let n := Z.of_nat (nat_of_ascii c) in
  if (48 <=? n) && (n <=? 57) then Some (n - 48) else None.

Fixpoint digits (acc : Z) (s : string) : option Z :=
  match s with
  | EmptyString => Some acc
  | String c rest =>
      match digit c with
      | Some d => digits (10 * acc + d) rest
      | None => None
      end
  end.

(** Days from 1970-01-01 to the civil date [y]-[m]-[d]. *)
Definition days_from_civil (y m d : Z) : Z :=
  let y' := if m <=? 2 then y - 1 else y in
  let era := y' / 400 in
  let yoe := y' - era * 400 in
  let doy := (153 * (if 2 <? m then m - 3 else m + 9) + 2) / 5 + d - 1 in
  let doe := yoe * 365 + yoe / 4 - yoe / 100 + doy in
  era * 146097 + doe - 719468.

Definition dash_at (n : nat) (s : string) : bool :=
  match String.get n s with
  | Some c => Ascii.eqb c "-"
  | None => false
  end.

Definition iso_date (s : string) : option Z :=
  if (String.length s =? 10)%nat && dash_at 4 s && dash_at 7 s then
    match digits 0 (substring 0 4 s), digits 0 (substring 5 2 s),
          digits 0 (substring 8 2 s) with
    | Some y, Some m, Some d =>
        if (1 <=? m) && (m <=? 12) && (1 <=? d) && (d <=? 31)
        then Some (days_from_civil y m d * 86400000)
        else None
    | _, _, _ => None
    end
  else None.

#[export] Instance host : Host := {|
  Number := option Z;
  ToNumber := digits 0;
  Date_parse := iso_date;
  isNaN := fun n => match n with Some _ => false | None => true end
|}.

(** The number [z] of this host. *)
Definition num (z : Z) : Number := Some z.

(** An instance to call [extract] on.  The constructor sets [opts] and
    [buffer] only; the other fields are assigned by [extract] before it reads
    them, so their contents here are immaterial. *)
Definition fresh : Parser := {|
  opts := defaults; buffer := []; filter := empty_filter; stack := [];
  chr := ""; escaped := false
|}.

(** The result list of [new Parser().extract(str)]. *)
Definition run (str : string) : Outcome (list FilterQuery) :=
  fst (extract str None fresh).

End Sample.

(** ** Vocabulary of the statements *)

Section Vocabulary.

Context {host : Host}.

(** The instance as [extract] has it when the loop starts: every field has
    just been assigned. *)
Definition start (options : option ParserOptions) : Parser := {|
  opts := merged options; buffer := []; filter := empty_filter; stack := [];
  chr := ""; escaped := false
|}.

(** The characters [step] has a branch for. *)
Definition structural (c : ascii) : bool :=
  Ascii.eqb c ":" || Ascii.eqb c "|" || Ascii.eqb c "," || Ascii.eqb c "]"
  || Ascii.eqb c ")" || Ascii.eqb c "[" || Ascii.eqb c "(" || Ascii.eqb c "\".

(** Ordinary characters, and the characters an open group takes as text. *)
Definition plain (c : ascii) : bool := negb (structural c).
Definition group_char (c : ascii) : bool :=
  plain c || Ascii.eqb c "," || Ascii.eqb c "|".

Definition plain_text (s : string) : bool :=
  forallb plain (list_ascii_of_string s).
Definition group_text (s : string) : bool :=
  forallb group_char (list_ascii_of_string s).

Definition nonempty (s : string) : bool :=
  match s with EmptyString => false | String _ _ => true end.

Fixpoint last_chr (s : string) (before : string) : string :=
  match s with
  | EmptyString => before
  | String c rest => last_chr rest (String c "")
  end.

(** The instance after the characters of [txt] were pushed one by one. *)
Definition pushed (txt : string) (p : Parser) : Parser := {|
  opts := opts p; buffer := buffer p; filter := filter p;
  stack := stack p ++ list_ascii_of_string txt;
  chr := last_chr txt (chr p); escaped := escaped p
|}.

(** The text of a clause up to its value, [type:field:operator:]. *)
Definition clause (ty : DataType.t) (key : string) (op : Operator.t) : string :=
  DataType.value ty ++ ":" ++ key ++ ":" ++ Operator.value op ++ ":".

Definition header (ty : DataType.t) (key : string) (op : Operator.t)
  (group : bool) : Header :=
  {| type := Some ty; field := Some key; operator := Some op; multi := group |}.

(** A field name a clause can carry under [options]: ordinary characters, at
    least one, and let through by [isValidKey]. *)
Definition usable_key (options : option ParserOptions) (key : string) : bool :=
  plain_text key && nonempty key
  && (includes (allowedKeys (merged options)) "*"
      || includes (allowedKeys (merged options)) key).

(** The result list of a call that emitted one descriptor. *)
Definition single (o : Outcome FilterQuery) : Outcome (list FilterQuery) :=
  match o with
  | Return q => Return [q]
  | Throw e => Throw e
  end.

(** The two closing brackets and the delimiter each records. *)
Definition closing (round : bool) : ascii := if round then ")" else "]".
Definition opening (round : bool) : ascii := if round then "(" else "[".
Definition delimiter_of (round : bool) : ascii := if round then "|" else ",".

(** The conversion [transform] maps over the tokens of a number clause and
    of a date clause. *)
Definition token_value (is_date : bool) : string -> Number :=
  if is_date then Date_parse else ToNumber.
Definition numeric (is_date : bool) : DataType.t :=
  if is_date then DataType.date else DataType.number.

End Vocabulary.

(** ** Vocabulary of the further properties *)

Section Further.

Context {host : Host}.

(** The instance [p] with the descriptors [b] already on its list. *)
Definition prefixed (b : list FilterQuery) (p : Parser) : Parser := {|
  opts := opts p; buffer := b ++ buffer p; filter := filter p;
  stack := stack p; chr := chr p; escaped := escaped p
|}.

(** A result list after the descriptors [b]; an error stays the error. *)
Definition prepend (b : list FilterQuery) (o : Outcome (list FilterQuery))
  : Outcome (list FilterQuery) :=
  match o with
  | Return l => Return (b ++ l)
  | Throw e => Throw e
  end.

(** The result of a call whose first clause gave [o] and whose remaining
    input gives [rest]: the first error aborts the call. *)
Definition followed_by (o : Outcome FilterQuery)
  (rest : Outcome (list FilterQuery)) : Outcome (list FilterQuery) :=
  match o with
  | Return q => prepend [q] rest
  | Throw e => Throw e
  end.

(** The two clause separators. *)
Definition separator (pipe : bool) : ascii := if pipe then "|" else ",".

(** [isValidKey(key)] under [options]. *)
Definition allowed (options : option ParserOptions) (key : string) : bool :=
  includes (allowedKeys (merged options)) "*"
  || includes (allowedKeys (merged options)) key.

(** The text [sep] does not occur in. *)
Definition free_of (sep : ascii) (s : string) : bool :=
  forallb (fun c => negb (Ascii.eqb c sep)) (list_ascii_of_string s).

(** The number of occurrences of [sep] in a text. *)
Definition occurrences (sep : ascii) (s : string) : nat :=
  length (List.filter (Ascii.eqb sep) (list_ascii_of_string s)).

(** The shape of [value] a descriptor of each declared type comes back with,
    and that no number in it is NaN. *)
Definition shaped (q : FilterQuery) : bool :=
  match type (head q), multi (head q), value q with
  | Some DataType.string, false, VString _ => true
  | Some DataType.string, true, VStrings _ => true
  | Some DataType.boolean, _, VBoolean _ => true
  | Some DataType.number, false, VNumber n => negb (isNaN n)
  | Some DataType.number, true, VNumbers l => negb (existsb isNaN l)
  | Some DataType.date, false, VString raw => negb (isNaN (Date_parse raw))
  | Some DataType.date, true, VNumbers l => negb (existsb isNaN l)
  | Some DataType.void, _, VNull => true
  | None, _, VString _ => true
  | _, _, _ => false
  end.

(** The operators a returned descriptor of each declared type can carry. *)
Definition legal (q : FilterQuery) : bool :=
  let op := operator (head q) in
  match type (head q) with
  | Some DataType.string => forStringTypeOperator op
  | Some DataType.boolean => op_is Operator.eq op || op_is Operator.ne op
  | Some DataType.number | Some DataType.date =>
      negb (multi (head q))
      || isRangeTypeOperator op || hasOneOfRangeTypeOperator op
  | Some DataType.void => op_is Operator.is_ op || op_is Operator.isNot op
  | None => true
  end.

(** A group comes back with the delimiter of its closing bracket; no other
    delimiter is ever recorded. *)
Definition delimited (q : FilterQuery) : bool :=
  match delimiter q with
  | Some d => Ascii.eqb d "," || Ascii.eqb d "|"
  | None => negb (multi (head q))
  end.

(** The descriptors [extract] hands to [transform]: the value is a text,
    and a delimiter is there exactly when a closing bracket gave it; without
    one the header is not multi. *)
Definition handed (f : FilterQuery) : Prop :=
  (exists raw, value f = VString raw)
  /\ ((delimiter f = None /\ multi (head f) = false)
      \/ delimiter f = Some ","%char \/ delimiter f = Some "|"%char).

(** A character that is neither separator, and a text of such. *)
Definition no_separator (c : ascii) : bool :=
  negb (Ascii.eqb c ",") && negb (Ascii.eqb c "|").
Definition separator_free (s : string) : bool :=
  forallb no_separator (list_ascii_of_string s).

(** Outside a group the stack never holds a separator. *)
Definition tidy (p : Parser) : bool :=
  multi (filter p) || forallb no_separator (stack p).

(** A value left as text outside a group holds no separator. *)
Definition scalar_text_is_separator_free (q : FilterQuery) : bool :=
  match value q with
  | VString s => multi (head q) || separator_free s
  | _ => true
  end.

(** A range over numbers or dates comes back with exactly two bounds. *)
Definition paired (q : FilterQuery) : bool :=
  match type (head q) with
  | Some DataType.number | Some DataType.date =>
      if multi (head q) && isRangeTypeOperator (operator (head q))
      then match value q with
           | VNumbers l => (length l =? 2)%nat
           | _ => false
           end
      else true
  | _ => true
  end.

End Further.

(** ** The query builder of [src/app.js]

    [builder] and [exp1] turn a descriptor into a MongoDB filter, a
    JavaScript object.  The objects they build are the terms of [Query]; the
    two failures they can end in are the [throw] of [builder]'s [default]
    case and the [TypeError] of reading [map] or an index off a value that
    has none. *)

Section Builder.

Context {host : Host}.

(** What [filter.value[i]] can be: [undefined], or a value. *)
Inductive Operand : Type :=
  | Undefined
  | Defined (v : Value).

#[warnings="-register-all"]
Inductive Query : Type :=
  (* [{ [field]: { [op]: v } }] *)
  | Compare (field : option string) (op : string) (v : Operand)
  (* [{ [kind]: [ ... ] }], [kind] one of [$and], [$or] *)
  | Junction (kind : string) (items : list Query)
  (* [{ [field]: { $regex: v, $options: 'i' } }] *)
  | Regex (field : option string) (v : Value)
  (* [{ [field]: { $not: { $regex: v, $options: 'i' } } }] *)
  | NotRegex (field : option string) (v : Value)
  (* [{ [field]: { $exists: b } }] *)
  | Exists (field : option string) (b : bool).

Inductive Built : Type :=
  | Built_query (q : Query)
  | UnsupportedOperator (operator : option Operator.t)
  | BuilderTypeError.

(** The elements [filter.value.map] runs over: a value that is not an array
    has no [map]. *)
Definition elements (v : Value) : option (list Value) :=
  match v with
  | VStrings l => Some (map VString l)
  | VNumbers l => Some (map VNumber l)
  | _ => None
  end.

(** [filter.value[i]]: an element of an array, a character of a string,
    [undefined] past the end and on numbers and booleans; [None] is the
    [TypeError] of indexing [null]. *)
Definition at_index (v : Value) (i : nat) : option Operand :=
  match v with
  | VStrings l =>
      Some (match nth_error l i with
            | Some s => Defined (VString s) | None => Undefined end)
  | VNumbers l =>
      Some (match nth_error l i with
            | Some n => Defined (VNumber n) | None => Undefined end)
  | VString s =>
      Some (match String.get i s with
            | Some c => Defined (VString (String c "")) | None => Undefined end)
  | VNumber _ | VBoolean _ => Some Undefined
  | VNull => None
  end.

Definition exp1 (filter : FilterQuery) (op : string) : Built :=
  let kind := match delimiter filter with
              | Some "|"%char => "$or"
              | _ => "$and"
              end in
  if negb (multi (head filter))
  then Built_query (Compare (field (head filter)) op (Defined (value filter)))
  else match elements (value filter) with
       | Some vs =>
           Built_query
             (Junction kind
                (map (fun v => Compare (field (head filter)) op (Defined v)) vs))
       | None => BuilderTypeError
       end.

(** The two bounds of a range, [value[0]] and [value[1]], under the
    comparisons [lo] and [hi], joined by [kind]. *)
Definition bounds (filter : FilterQuery) (kind lo hi : string) : Built :=
  match at_index (value filter) 0, at_index (value filter) 1 with
  | Some a, Some b =>
      Built_query (Junction kind [Compare (field (head filter)) lo a;
                                  Compare (field (head filter)) hi b])
  | _, _ => BuilderTypeError
  end.

Definition builder (filter : FilterQuery) : Built :=
  match operator (head filter) with
  | Some Operator.eq => exp1 filter "$eq"
  | Some Operator.ne => exp1 filter "$ne"
  | Some Operator.gt => exp1 filter "$gt"
  | Some Operator.gte => exp1 filter "$gte"
  | Some Operator.lt => exp1 filter "$lt"
  | Some Operator.lte => exp1 filter "$lte"
  | Some Operator.between => bounds filter "$and" "$gt" "$lt"
  | Some Operator.notBetween => bounds filter "$or" "$lt" "$gt"
  | Some Operator.in_ =>
      Built_query (Compare (field (head filter)) "$in" (Defined (value filter)))
  | Some Operator.notIn =>
      Built_query (Compare (field (head filter)) "$nin" (Defined (value filter)))
  | Some Operator.regex => Built_query (Regex (field (head filter)) (value filter))
  | Some Operator.notRegex =>
      Built_query (NotRegex (field (head filter)) (value filter))
  | Some Operator.isNot => Built_query (Exists (field (head filter)) false)
  | Some Operator.is_ => Built_query (Exists (field (head filter)) true)
  | None => UnsupportedOperator None
  end.

(** The MongoDB name [builder] gives each of the six comparisons. *)
Definition comparison (op : Operator.t) : option string :=
  match op with
  | Operator.eq => Some "$eq"
  | Operator.ne => Some "$ne"
  | Operator.gt => Some "$gt"
  | Operator.gte => Some "$gte"
  | Operator.lt => Some "$lt"
  | Operator.lte => Some "$lte"
  | _ => None
  end.

(** [exp.forEach(e => builder(e))] on the list a call of [extract]
    returned; a call that threw has no list (the script drops it). *)
Definition build_all (o : Outcome (list FilterQuery)) : option (list Built) :=
  match o with
  | Return l => Some (map builder l)
  | Throw _ => None
  end.

End Builder.

(** ** The loop *)

Section Loop.

Context {host : Host}.

Lemma join_chars (s : string) : join (list_ascii_of_string s) = s.
Proof. apply string_of_list_ascii_of_string. Qed.

Lemma chars_app (s1 s2 : string) :
  list_ascii_of_string (s1 ++ s2)
  = list_ascii_of_string s1 ++ list_ascii_of_string s2.
Proof. induction s1 as [|c s1 IH]; cbn; [reflexivity | now rewrite IH]. Qed.

Lemma scan_app (s1 s2 : string) (p : Parser) :
  scan (s1 ++ s2) p
  = match scan s1 p with
    | (Return _, p') => scan s2 p'
    | (Throw e, p') => (Throw e, p')
    end.
Proof.
  revert p; induction s1 as [|c s1 IH]; intro p; cbn.
  - reflexivity.
  - unfold bind. destruct (step c p) as [[[]|e] p']; [apply IH | reflexivity].
Qed.

Lemma extract_start (str : string) (options : option ParserOptions) (p : Parser) :
  extract str options p = (scan str ;; finish) (start options).
Proof. reflexivity. Qed.

Lemma plain_eqbs (c : ascii) :
  plain c = true ->
  Ascii.eqb c ":" = false /\ Ascii.eqb c "|" = false /\ Ascii.eqb c "," = false
  /\ Ascii.eqb c "]" = false /\ Ascii.eqb c ")" = false
  /\ Ascii.eqb c "[" = false /\ Ascii.eqb c "(" = false
  /\ Ascii.eqb c "\" = false.
Proof.
  unfold plain, structural. rewrite negb_true_iff, !orb_false_iff. tauto.
Qed.

Lemma step_plain (c : ascii) (p : Parser) :
  plain c = true -> step c p = (Return tt, pushed (String c "") p).
Proof.
  intro H. apply plain_eqbs in H.
  destruct H as (H1 & H2 & H3 & H4 & H5 & H6 & H7 & H8).
  unfold step, bind, modify, gets, push. cbn.
  rewrite H1, H2, H3, H4, H5, H6, H7, H8. reflexivity.
Qed.

Lemma pushed_cons (c : ascii) (rest : string) (p : Parser) :
  pushed rest (pushed (String c "") p) = pushed (String c rest) p.
Proof. unfold pushed; cbn. now rewrite <- app_assoc. Qed.

Lemma scan_plain (txt : string) (p : Parser) :
  plain_text txt = true -> scan txt p = (Return tt, pushed txt p).
Proof.
  unfold plain_text. revert p; induction txt as [|c rest IH]; intros p H.
  - destruct p; unfold pushed; cbn. now rewrite app_nil_r.
  - cbn in H. apply andb_true_iff in H as [Hc Hrest].
    cbn [scan]. unfold bind. rewrite (step_plain c p Hc).
    rewrite (IH _ Hrest). now rewrite pushed_cons.
Qed.

Lemma step_group (c : ascii) (p : Parser) :
  multi (filter p) = true -> escaped p = false -> group_char c = true ->
  step c p = (Return tt, pushed (String c "") p).
Proof.
  intros Hm He Hc. unfold group_char in Hc.
  destruct (plain c) eqn:Hp; [now apply step_plain|].
  cbn in Hc.
  assert (Hcolon : Ascii.eqb c ":" = false).
  { apply orb_true_iff in Hc as [Hc|Hc]; apply Ascii.eqb_eq in Hc; now subst. }
  assert (Hsep : Ascii.eqb c "|" || Ascii.eqb c "," = true).
  { rewrite orb_comm. exact Hc. }
  destruct p as [o b f stk ch esc]; cbn in Hm, He; subst esc.
  unfold step, bind, modify, gets, push, when, ret; cbn.
  rewrite Hcolon, Hsep; cbn. rewrite Hm, andb_false_r. reflexivity.
Qed.

Lemma scan_group (txt : string) (p : Parser) :
  multi (filter p) = true -> escaped p = false -> group_text txt = true ->
  scan txt p = (Return tt, pushed txt p).
Proof.
  unfold group_text. revert p; induction txt as [|c rest IH]; intros p Hm He H.
  - destruct p; unfold pushed; cbn. now rewrite app_nil_r.
  - cbn in H. apply andb_true_iff in H as [Hc Hrest].
    cbn [scan]. unfold bind. rewrite (step_group c p Hm He Hc).
    rewrite (IH (pushed (String c "") p) Hm He Hrest).
    now rewrite pushed_cons.
Qed.

(** *** A clause header, [type:field:operator:] *)

Lemma type_tag_plain (ty : DataType.t) : plain_text (DataType.value ty) = true.
Proof. now destruct ty. Qed.

Lemma operator_token_plain (op : Operator.t) :
  plain_text (Operator.value op) = true.
Proof. now destruct op. Qed.

Lemma getFilterType_value (ty : DataType.t) :
  getFilterType (DataType.value ty) = Some ty.
Proof. now destruct ty. Qed.

Lemma getFilterOperator_value (op : Operator.t) :
  getFilterOperator (Operator.value op) = Some op.
Proof. now destruct op. Qed.

Lemma truthy_nonempty (key : string) : nonempty key = true -> truthy (Some key) = true.
Proof. now destruct key. Qed.

Lemma colon_type (ty : DataType.t) o b c0 :
  step ":" {| opts := o; buffer := b; filter := empty_filter;
              stack := list_ascii_of_string (DataType.value ty);
              chr := c0; escaped := false |}
  = (Return tt,
     {| opts := o; buffer := b;
        filter := set_type (Some ty) empty_filter;
        stack := []; chr := ":"; escaped := false |}).
Proof.
  unfold step, colon, bind, modify, gets, when, ret;
    cbn -[getFilterType join].
  rewrite join_chars, getFilterType_value. reflexivity.
Qed.

Lemma colon_field (ty : DataType.t) (key : string) options b c0 :
  usable_key options key = true ->
  step ":" {| opts := merged options; buffer := b;
              filter := set_type (Some ty) empty_filter;
              stack := list_ascii_of_string key;
              chr := c0; escaped := false |}
  = (Return tt,
     {| opts := merged options; buffer := b;
        filter := set_field (Some key) (set_type (Some ty) empty_filter);
        stack := []; chr := ":"; escaped := false |}).
Proof.
  unfold usable_key. rewrite !andb_true_iff. intros [_ Hallow].
  unfold step, colon, isValidKey, bind, modify, gets, when, ret;
    cbn -[join includes].
  rewrite join_chars, Hallow. reflexivity.
Qed.

Lemma colon_operator (ty : DataType.t) (key : string) (op : Operator.t) o b c0 :
  nonempty key = true ->
  step ":" {| opts := o; buffer := b;
              filter := set_field (Some key) (set_type (Some ty) empty_filter);
              stack := list_ascii_of_string (Operator.value op);
              chr := c0; escaped := false |}
  = (Return tt,
     {| opts := o; buffer := b; filter := header ty key op false;
        stack := []; chr := ":"; escaped := false |}).
Proof.
  intro Hne. apply truthy_nonempty in Hne.
  unfold step, colon, bind, modify, gets, when, ret;
    cbn -[getFilterOperator join truthy].
  rewrite Hne; cbn -[getFilterOperator join].
  rewrite join_chars, getFilterOperator_value. reflexivity.
Qed.

Lemma scan_clause (ty : DataType.t) (key : string) (op : Operator.t)
  options b c0 :
  usable_key options key = true ->
  scan (clause ty key op)
       {| opts := merged options; buffer := b; filter := empty_filter;
          stack := []; chr := c0; escaped := false |}
  = (Return tt,
     {| opts := merged options; buffer := b; filter := header ty key op false;
        stack := []; chr := ":"; escaped := false |}).
Proof.
  intro Hkey. pose proof Hkey as H. unfold usable_key in H.
  rewrite !andb_true_iff in H. destruct H as [[Hplain Hne] _].
  unfold clause.
  rewrite scan_app, (scan_plain _ _ (type_tag_plain ty)).
  unfold pushed; cbn [opts buffer filter stack chr escaped app append scan].
  unfold bind at 1. rewrite colon_type.
  rewrite scan_app, (scan_plain _ _ Hplain).
  unfold pushed; cbn [opts buffer filter stack chr escaped app append scan].
  unfold bind at 1. rewrite (colon_field ty key options _ _ Hkey).
  rewrite scan_app, (scan_plain _ _ (operator_token_plain op)).
  unfold pushed; cbn [opts buffer filter stack chr escaped app append scan].
  unfold bind, ret. rewrite (colon_operator ty key op _ _ _ Hne).
  reflexivity.
Qed.

(** *** Brackets *)

Lemma step_opening (round : bool) o b f stk c :
  step (opening round)
       {| opts := o; buffer := b; filter := f; stack := stk; chr := c;
          escaped := false |}
  = (Return tt,
     {| opts := o; buffer := b; filter := set_multi true f; stack := [];
        chr := String (opening round) ""; escaped := false |}).
Proof. now destruct round. Qed.

Lemma step_closing (round : bool) o b f stk c :
  step (closing round)
       {| opts := o; buffer := b; filter := f; stack := stk; chr := c;
          escaped := false |}
  = match transform {| head := f; delimiter := Some (delimiter_of round);
                       value := VString (join stk) |} with
    | Return q =>
        (Return tt,
         {| opts := o; buffer := b ++ [q]; filter := empty_filter;
            stack := []; chr := ""; escaped := false |})
    | Throw e =>
        (Throw e,
         {| opts := o; buffer := b; filter := f; stack := stk;
            chr := String (closing round) ""; escaped := false |})
    end.
Proof.
  destruct round;
    unfold step, emit, reset, bind, modify, gets, when, ret;
    cbn -[transform join];
    now destruct (transform _).
Qed.

(** *** One clause, from [extract] to [transform] *)

Lemma is_nil_chars (v : string) :
  nonempty v = true -> is_nil (list_ascii_of_string v) = false.
Proof. now destruct v. Qed.

Lemma extract_scalar (ty : DataType.t) (key : string) (op : Operator.t)
  (v : string) options p :
  usable_key options key = true ->
  plain_text v = true -> nonempty v = true ->
  fst (extract (clause ty key op ++ v) options p)
  = single (transform {| head := header ty key op false; delimiter := None;
                         value := VString v |}).
Proof.
  intros Hkey Hv Hne.
  rewrite extract_start. unfold bind, start.
  rewrite scan_app, (scan_clause _ _ _ _ _ _ Hkey), (scan_plain _ _ Hv).
  unfold pushed; cbn [opts buffer filter stack chr escaped app].
  assert (Hk : truthy (Some key) = true).
  { apply truthy_nonempty. unfold usable_key in Hkey.
    rewrite !andb_true_iff in Hkey. tauto. }
  unfold finish, emit, bind, modify, gets, when, ret;
    cbn -[transform join truthy].
  rewrite (is_nil_chars _ Hne), Hk; cbn -[transform join].
  rewrite join_chars. now destruct (transform _).
Qed.

Lemma extract_group (ty : DataType.t) (key : string) (op : Operator.t)
  (ro rc : bool) (body : string) options p :
  usable_key options key = true ->
  group_text body = true ->
  fst (extract (clause ty key op
                ++ String (opening ro) (body ++ String (closing rc) ""))
               options p)
  = single (transform {| head := header ty key op true;
                         delimiter := Some (delimiter_of rc);
                         value := VString body |}).
Proof.
  intros Hkey Hbody.
  rewrite extract_start. unfold bind at 1. unfold start.
  rewrite scan_app, (scan_clause _ _ _ _ _ _ Hkey).
  cbn [scan]. unfold bind at 1. rewrite step_opening.
  rewrite scan_app, (scan_group body) by first [exact Hbody | reflexivity].
  unfold pushed; cbn [opts buffer filter stack chr escaped app scan].
  unfold bind at 1. rewrite step_closing, join_chars.
  unfold header, set_multi; cbn [type field operator multi].
  now destruct (transform _).
Qed.

End Loop.

(** ** Escapes *)

Section Escapes.

Context {host : Host}.

(** A backslash and the colon after it, in any state: the colon joins the
    stack, the flag is down again, nothing else moves. *)
Lemma scan_escaped_colon (rest : string) (p : Parser) :
  scan (String "\" (String ":" rest)) p
  = scan rest {| opts := opts p; buffer := buffer p; filter := filter p;
                 stack := stack p ++ [":"%char]; chr := ":";
                 escaped := false |}.
Proof. reflexivity. Qed.

(** A backslash and one of the six other structural characters after it. *)
Lemma scan_escaped_other (c : ascii) (rest : string) (p : Parser) :
  In c [","; "|"; "["; "]"; "("; ")"]%char ->
  fst (scan (String "\" (String c rest)) p) = Throw (InvalidEscapedCharacter c).
Proof.
  cbn [In]. intros [<-|[<-|[<-|[<-|[<-|[<-|[]]]]]]]; reflexivity.
Qed.

(** Ordinary text, a backslash-escaped colon, ordinary text. *)
Lemma scan_text_with_colon (ok : ascii -> bool) (v1 v2 : string) (p : Parser) :
  (forall txt q, escaped q = false -> multi (filter q) = multi (filter p) ->
                 forallb ok (list_ascii_of_string txt) = true ->
                 scan txt q = (Return tt, pushed txt q)) ->
  escaped p = false ->
  forallb ok (list_ascii_of_string v1) = true ->
  forallb ok (list_ascii_of_string v2) = true ->
  scan (v1 ++ String "\" (String ":" v2)) p
  = (Return tt,
     {| opts := opts p; buffer := buffer p; filter := filter p;
        stack := stack p ++ list_ascii_of_string (v1 ++ String ":" v2);
        chr := last_chr v2 ":"; escaped := false |}).
Proof.
  intros Hscan He H1 H2.
  rewrite scan_app, (Hscan v1 p He eq_refl H1), scan_escaped_colon.
  rewrite Hscan by first [exact H2 | reflexivity].
  unfold pushed; cbn [opts buffer filter stack chr escaped].
  rewrite chars_app, <- !app_assoc. reflexivity.
Qed.

End Escapes.

(** ** Inputs without a colon *)

Section Headerless.

Context {host : Host}.

(** The header keys [field] and [operator] are written by the branch of the
    unescaped colon only: any other character leaves them unset, whether
    the step returns or throws. *)
Lemma step_without_colon (c : ascii) (p : Parser) :
  Ascii.eqb c ":" = false ->
  field (filter p) = None -> operator (filter p) = None ->
  field (filter (snd (step c p))) = None
  /\ operator (filter (snd (step c p))) = None.
Proof.
  intros Hc Hf Ho. destruct p as [o b [ty fld op m] stk ch esc].
  cbn in Hf, Ho; subst fld op.
  unfold step, emit, reset, bind, modify, gets, when, ret, throw, push.
  rewrite Hc.
  destruct ty, esc, m, stk;
    repeat match goal with
           | |- context [if ?b then _ else _] =>
               destruct b; cbn -[transform join]
           | |- context [match transform ?q with
                         | Return _ => _ | Throw _ => _ end] =>
               destruct (transform q); cbn -[transform join]
           end;
    auto.
Qed.

Lemma scan_without_colon (str : string) (p : Parser) :
  forallb (fun c => negb (Ascii.eqb c ":")) (list_ascii_of_string str) = true ->
  field (filter p) = None -> operator (filter p) = None ->
  field (filter (snd (scan str p))) = None
  /\ operator (filter (snd (scan str p))) = None.
Proof.
  revert p; induction str as [|c rest IH]; intros p Hstr Hf Ho.
  - now split.
  - cbn in Hstr. apply andb_true_iff in Hstr as [Hc Hrest].
    apply negb_true_iff in Hc.
    destruct (step_without_colon c p Hc Hf Ho) as [Hf' Ho'].
    cbn [scan]. unfold bind.
    destruct (step c p) as [[[]|e] p1]; cbn [snd] in *.
    + now apply IH.
    + now split.
Qed.

End Headerless.

(** ** The coercer on number and date groups *)

Section Coercer.

Context {host : Host}.

Lemma range_or_list (op : Operator.t) :
  hasOneOfRangeTypeOperator (Some op) = true ->
  isRangeTypeOperator (Some op) = false.
Proof. now destruct op. Qed.

Lemma transform_numeric_group (is_date : bool) (key : string)
  (op : Operator.t) (d : ascii) (body : string) :
  transform {| head := header (numeric is_date) key op true;
               delimiter := Some d; value := VString body |}
  = if existsb isNaN (map (token_value is_date) (split d body))
    then Throw InvalidValueTypes
    else check_group
           {| head := header (numeric is_date) key op true;
              delimiter := Some d; value := VString body |}
           (map (token_value is_date) (split d body)).
Proof. now destruct is_date. Qed.

Lemma transform_list_group (is_date : bool) (key : string)
  (op : Operator.t) (d : ascii) (body : string) :
  hasOneOfRangeTypeOperator (Some op) = true ->
  existsb isNaN (map (token_value is_date) (split d body)) = false ->
  transform {| head := header (numeric is_date) key op true;
               delimiter := Some d; value := VString body |}
  = Return {| head := header (numeric is_date) key op true;
              delimiter := Some d;
              value := VNumbers (map (token_value is_date) (split d body)) |}.
Proof.
  intros Hop Hnan. rewrite transform_numeric_group, Hnan.
  unfold check_group; cbn [head operator header].
  now rewrite (range_or_list _ Hop), Hop.
Qed.

Lemma transform_range_group (is_date : bool) (key : string)
  (op : Operator.t) (d : ascii) (body : string) :
  isRangeTypeOperator (Some op) = true ->
  transform {| head := header (numeric is_date) key op true;
               delimiter := Some d; value := VString body |}
  = if existsb isNaN (map (token_value is_date) (split d body))
    then Throw InvalidValueTypes
    else if (length (map (token_value is_date) (split d body)) =? 2)%nat
    then Return {| head := header (numeric is_date) key op true;
                   delimiter := Some d;
                   value := VNumbers (map (token_value is_date) (split d body)) |}
    else Throw (WrongNumberOfArguments 2
                  (length (map (token_value is_date) (split d body)))).
Proof.
  intros Hop. rewrite transform_numeric_group.
  destruct (existsb _ _); [reflexivity|].
  unfold check_group; cbn [head operator header]. rewrite Hop.
  now destruct (_ =? 2)%nat.
Qed.

(** Whatever it returns, [transform] changes the value only. *)
Lemma transform_keeps_header (f q : FilterQuery) :
  transform f = Return q -> head q = head f /\ delimiter q = delimiter f.
Proof.
  unfold transform, check_group.
  destruct (value f); try discriminate.
  repeat match goal with
         | |- context [if ?b then _ else _] => destruct b
         | |- context [match ?o with Return _ => _ | Throw _ => _ end] =>
             destruct o
         | |- context [match ?l with [] => _ | _ :: _ => _ end] => destruct l
         end;
    intro H; inversion H; subst; split; reflexivity.
Qed.

End Coercer.

(** ** The properties of the specification *)

Section Properties.

Context {host : Host}.

(** C1, as amended.  Of the structural characters only the colon can be
    escaped.  [\:] is accepted in every state: a literal [:] joins the value
    text, the flag is cleared, the header is untouched.  A backslash
    directly followed by [,], [|], [[], []], [(] or [)] is refused: whatever
    surrounds the pair, [extract] throws, and the error is [Invalid escaped
    character] naming it unless the text before the backslash had thrown
    already. *)
Theorem only_the_colon_can_be_escaped :
  (forall (p : Parser),
     scan "\:" p
     = (Return tt,
        {| opts := opts p; buffer := buffer p; filter := filter p;
           stack := stack p ++ [":"%char]; chr := ":"; escaped := false |}))
  /\ Forall
       (fun c : ascii =>
          forall (s1 s2 : string) (options : option ParserOptions) (p : Parser),
            fst (extract (s1 ++ String "\" (String c s2)) options p)
            = match fst (scan s1 (start options)) with
              | Return _ => Throw (InvalidEscapedCharacter c)
              | Throw e => Throw e
              end)
       [","; "|"; "["; "]"; "("; ")"]%char.
Proof.
  split; [reflexivity|].
  apply Forall_forall. intros c Hc s1 s2 options p.
  rewrite extract_start. unfold bind at 1. rewrite scan_app.
  destruct (scan s1 (start options)) as [[[]|e] p1]; [|reflexivity].
  pose proof (scan_escaped_other c s2 p1 Hc) as H.
  destruct (scan _ p1) as [[[]|e] p2]; cbn [fst] in *;
    [discriminate | congruence].
Qed.

(** C2.  The closing bracket alone fixes the delimiter a group records, [,]
    for []] and [|] for [)], whichever bracket opened it: for every declared
    type the coercer receives the group's text with that delimiter.  The
    tokens of a number or date group are the pieces of the text between
    occurrences of the recorded delimiter: with a list operator and tokens
    that all convert, the clause yields the list of the converted tokens, in
    order.  Without brackets a number value is one token and yields one
    number. *)
Theorem group_tokens_split_on_recorded_delimiter
  (ty : DataType.t) (is_date ro rc : bool) (key : string) (op : Operator.t)
  (body v : string) (options : option ParserOptions) (p : Parser) :
  usable_key options key = true ->
  (group_text body = true ->
   fst (extract (clause ty key op
                 ++ String (opening ro) (body ++ String (closing rc) ""))
                options p)
   = single (transform {| head := header ty key op true;
                          delimiter := Some (delimiter_of rc);
                          value := VString body |}))
  /\ (group_text body = true ->
      hasOneOfRangeTypeOperator (Some op) = true ->
      existsb isNaN (map (token_value is_date) (split (delimiter_of rc) body))
      = false ->
      fst (extract (clause (numeric is_date) key op
                    ++ String (opening ro) (body ++ String (closing rc) ""))
                   options p)
      = Return [{| head := header (numeric is_date) key op true;
                   delimiter := Some (delimiter_of rc);
                   value := VNumbers (map (token_value is_date)
                                          (split (delimiter_of rc) body)) |}])
  /\ (plain_text v = true -> nonempty v = true ->
      isNaN (ToNumber v) = false ->
      fst (extract (clause DataType.number key op ++ v) options p)
      = Return [{| head := header DataType.number key op false;
                   delimiter := None; value := VNumber (ToNumber v) |}]).
Proof.
  intro Hkey. split; [|split].
  - intro Hbody. exact (extract_group _ _ _ _ _ _ _ _ Hkey Hbody).
  - intros Hbody Hop Hnan.
    rewrite (extract_group _ _ _ _ _ _ _ _ Hkey Hbody).
    now rewrite (transform_list_group _ _ _ _ _ Hop Hnan).
  - intros Hv Hne Hnan.
    rewrite (extract_scalar _ _ _ _ _ _ Hkey Hv Hne).
    unfold transform; cbn -[ToNumber isNaN]. now rewrite Hnan.
Qed.

(** C3, on the code.  A date clause without brackets whose text [Date.parse]
    accepts comes back with its value still the raw text: the parsed
    instant is computed, checked and dropped. *)
Theorem scalar_date_keeps_raw_text
  (key : string) (op : Operator.t) (v : string)
  (options : option ParserOptions) (p : Parser) :
  usable_key options key = true ->
  plain_text v = true -> nonempty v = true ->
  isNaN (Date_parse v) = false ->
  fst (extract (clause DataType.date key op ++ v) options p)
  = Return [{| head := header DataType.date key op false;
               delimiter := None; value := VString v |}].
Proof.
  intros Hkey Hv Hne Hnan.
  rewrite (extract_scalar _ _ _ _ _ _ Hkey Hv Hne).
  unfold transform; cbn -[Date_parse isNaN]. now rewrite Hnan.
Qed.

(** C4, on the code.  A void clause with operator [!!] or [!] passes both
    guards of [transform] with the text [undefined] as it does with [null],
    and then hands the text to [JSON.parse]: [null] comes back as the null
    value, [undefined] is not JSON and the call ends in a [SyntaxError]. *)
Theorem void_undefined_ends_in_syntax_error
  (negated : bool) (key : string)
  (options : option ParserOptions) (p : Parser) :
  usable_key options key = true ->
  fst (extract (clause DataType.void key
                  (if negated then Operator.isNot else Operator.is_)
                ++ "undefined") options p)
  = Throw (JSONSyntaxError "undefined")
  /\ fst (extract (clause DataType.void key
                     (if negated then Operator.isNot else Operator.is_)
                   ++ "null") options p)
     = Return [{| head := header DataType.void key
                            (if negated then Operator.isNot else Operator.is_)
                            false;
                  delimiter := None; value := VNull |}].
Proof.
  intro Hkey.
  split.
  - rewrite (extract_scalar _ _ _ "undefined" _ _ Hkey eq_refl eq_refl).
    now destruct negated.
  - rewrite (extract_scalar _ _ _ "null" _ _ Hkey eq_refl eq_refl).
    now destruct negated.
Qed.

(** C5, on the code.  When the input ends right after an opening bracket the
    call returns normally, with an empty list: the check for an open group
    sits behind the test that the stack is not empty.  With text after the
    bracket the same input shape throws [unbalanced parenthesis or
    brackets]. *)
Theorem unclosed_group_without_text_returns
  (ty : DataType.t) (key : string) (op : Operator.t) (ro : bool)
  (body : string) (options : option ParserOptions) (p : Parser) :
  usable_key options key = true ->
  fst (extract (clause ty key op ++ String (opening ro) "") options p)
  = Return []
  /\ (group_text body = true -> nonempty body = true ->
      fst (extract (clause ty key op ++ String (opening ro) body) options p)
      = Throw UnbalancedBrackets).
Proof.
  intro Hkey.
  assert (Hk : truthy (Some key) = true).
  { apply truthy_nonempty. unfold usable_key in Hkey.
    rewrite !andb_true_iff in Hkey. tauto. }
  split; [|intros Hbody Hne];
    rewrite extract_start; unfold bind at 1; unfold start;
    rewrite scan_app, (scan_clause _ _ _ _ _ _ Hkey);
    cbn [scan]; unfold bind at 1; rewrite step_opening.
  - reflexivity.
  - rewrite (scan_group body) by first [exact Hbody | reflexivity].
    unfold pushed; cbn [opts buffer filter stack chr escaped app].
    unfold finish, bind, gets, when, throw; cbn -[truthy].
    now rewrite (is_nil_chars _ Hne), Hk.
Qed.

(** C6, on the code.  Ordinary characters do not clear the flag a backslash
    set.  After a backslash and any run of ordinary text the next colon is
    still taken as a literal character, pushed after that text, and only
    then is the flag cleared; the next comma is still taken as an escaped
    comma, and refused. *)
Theorem escape_outlives_ordinary_text (txt : string) (p : Parser) :
  plain_text txt = true ->
  scan (String "\" (txt ++ ":")) p
  = (Return tt,
     {| opts := opts p; buffer := buffer p; filter := filter p;
        stack := stack p ++ list_ascii_of_string txt ++ [":"%char];
        chr := ":"; escaped := false |})
  /\ fst (scan (String "\" (txt ++ ",")) p)
     = Throw (InvalidEscapedCharacter ",").
Proof.
  intro Htxt. split; cbn [scan]; unfold bind at 1;
    change (step "\" p) with (Return tt, set_escaped true (set_chr "\" p));
    cbn iota; rewrite scan_app, (scan_plain _ _ Htxt).
  - unfold pushed; cbn. now rewrite <- app_assoc.
  - reflexivity.
Qed.

(** The same on a whole input: the colon of [q:r] is value text. *)
Example colon_two_places_after_backslash (p : Parser) :
  fst (extract "s:a:=:p\q:r" None p)
  = Return [{| head := header DataType.string "a" Operator.eq false;
               delimiter := None; value := VString "pq:r" |}].
Proof. reflexivity. Qed.

(** C7.  In the value of a clause a backslash-escaped colon is a literal
    colon of the value text and not a header separator: the header of the
    clause is the one read before the value, and the coercer receives the
    text with [:] in place of [\:], for a value without brackets and for a
    group alike. *)
Theorem escaped_colon_is_value_text
  (ty : DataType.t) (key : string) (op : Operator.t) (ro rc : bool)
  (v1 v2 : string) (options : option ParserOptions) (p : Parser) :
  usable_key options key = true ->
  (plain_text v1 = true -> plain_text v2 = true ->
   fst (extract (clause ty key op ++ v1 ++ String "\" (String ":" v2))
                options p)
   = single (transform {| head := header ty key op false; delimiter := None;
                          value := VString (v1 ++ String ":" v2) |}))
  /\ (group_text v1 = true -> group_text v2 = true ->
      fst (extract (clause ty key op
                    ++ String (opening ro)
                         ((v1 ++ String "\" (String ":" v2))
                          ++ String (closing rc) ""))
                   options p)
      = single (transform {| head := header ty key op true;
                             delimiter := Some (delimiter_of rc);
                             value := VString (v1 ++ String ":" v2) |})).
Proof.
  intro Hkey.
  assert (Hk : truthy (Some key) = true).
  { apply truthy_nonempty. unfold usable_key in Hkey.
    rewrite !andb_true_iff in Hkey. tauto. }
  split; intros H1 H2;
    rewrite extract_start; unfold bind at 1; unfold start;
    rewrite scan_app, (scan_clause _ _ _ _ _ _ Hkey).
  - rewrite (scan_text_with_colon plain v1 v2)
      by first [exact H1 | exact H2 | reflexivity
               | intros; now apply scan_plain].
    cbn [opts buffer filter stack chr escaped app].
    unfold finish, emit, bind, gets, when, ret; cbn -[transform join truthy].
    assert (Hnil : is_nil (list_ascii_of_string (v1 ++ String ":" v2)) = false).
    { rewrite chars_app. now destruct (list_ascii_of_string v1). }
    rewrite Hnil, Hk; cbn -[transform join].
    rewrite join_chars. now destruct (transform _).
  - cbn [scan]. unfold bind at 1. rewrite step_opening, scan_app.
    rewrite (scan_text_with_colon group_char v1 v2)
      by first [exact H1 | exact H2 | reflexivity
               | intros txt q He Hm Htxt; now apply scan_group].
    cbn [opts buffer filter stack chr escaped app scan].
    unfold bind at 1. rewrite step_closing, join_chars.
    unfold header, set_multi; cbn [type field operator multi].
    now destruct (transform _).
Qed.

(** C8, as amended.  For a number or date group under [><] or [>!<] the
    conversion of the elements is checked before their count.  If some
    element does not convert the call throws [Invalid value types], whatever
    the count; if all convert, it succeeds with the two converted elements
    in their order when the group splits into exactly 2, and otherwise
    throws [Wrong number of arguments], expecting 2 and naming the count. *)
Theorem range_group_arity
  (is_date ro rc : bool) (key : string) (op : Operator.t) (body : string)
  (options : option ParserOptions) (p : Parser) :
  usable_key options key = true ->
  group_text body = true ->
  isRangeTypeOperator (Some op) = true ->
  fst (extract (clause (numeric is_date) key op
                ++ String (opening ro) (body ++ String (closing rc) ""))
               options p)
  = if existsb isNaN (map (token_value is_date) (split (delimiter_of rc) body))
    then Throw InvalidValueTypes
    else if (length (split (delimiter_of rc) body) =? 2)%nat
    then Return [{| head := header (numeric is_date) key op true;
                    delimiter := Some (delimiter_of rc);
                    value := VNumbers (map (token_value is_date)
                                           (split (delimiter_of rc) body)) |}]
    else Throw (WrongNumberOfArguments 2
                  (length (split (delimiter_of rc) body))).
Proof.
  intros Hkey Hbody Hop.
  rewrite (extract_group _ _ _ _ _ _ _ _ Hkey Hbody).
  rewrite (transform_range_group _ _ _ _ _ Hop), length_map.
  destruct (existsb _ _); [reflexivity|].
  now destruct (_ =? 2)%nat.
Qed.

(** C9.  [extract] assigns every field of the instance before it reads any:
    its outcome and the instance it leaves depend on the input string and
    the options only.  Hence two calls with the same arguments agree, also
    when the second runs on the instance the first, or any other call, left
    behind, returned or thrown.  (The list a call returns is not touched by
    the next one either: the next call assigns a new list to [buffer], it
    does not empty the old one, and every descriptor pushed is a new
    object.) *)
Theorem extract_ignores_previous_state :
  (forall (str : string) (options : option ParserOptions) (p1 p2 : Parser),
     extract str options p1 = extract str options p2)
  /\ (forall (str str' : string) (options options' : option ParserOptions)
             (p : Parser),
        fst (extract str options (snd (extract str' options' p)))
        = fst (extract str options p)).
Proof.
  split; intros; now rewrite !extract_start.
Qed.

(** C10.  If the loop ends without an error on an instance whose field is
    falsy and whose operator is unset, [extract] returns the list built so
    far and nothing else happens: whatever text is left on the stack yields
    no descriptor and no error, and the instance is the one the loop left. *)
Theorem headerless_tail_is_dropped
  (str : string) (options : option ParserOptions) (p p' : Parser) :
  scan str (start options) = (Return tt, p') ->
  truthy (field (filter p')) = false ->
  operator (filter p') = None ->
  extract str options p = (Return (buffer p'), p').
Proof.
  intros Hscan Hfield Hop.
  rewrite extract_start. unfold bind at 1. rewrite Hscan.
  unfold finish, bind, gets, ret; cbn -[truthy].
  now rewrite Hfield, Hop, andb_false_r.
Qed.

(** In particular an input without any colon never yields a descriptor for
    the text after its last separator: if the loop gets through it, the call
    returns the list the loop built. *)
Corollary colon_free_input_returns_buffer
  (str : string) (options : option ParserOptions) (p : Parser) :
  forallb (fun c => negb (Ascii.eqb c ":")) (list_ascii_of_string str) = true ->
  fst (scan str (start options)) = Return tt ->
  fst (extract str options p)
  = Return (buffer (snd (scan str (start options)))).
Proof.
  intros Hstr Hscan.
  destruct (scan_without_colon str (start options) Hstr eq_refl eq_refl)
    as [Hf Ho].
  destruct (scan str (start options)) as [o p'] eqn:E; cbn [fst snd] in *.
  subst o. rewrite extract_start. unfold bind at 1. rewrite E.
  unfold finish, bind, gets, ret; cbn -[truthy].
  now rewrite Hf, Ho, andb_false_r.
Qed.

End Properties.

(** ** Worked inputs

    The inputs are those of [src/app.js] and of the specification, run on a
    fresh instance with the executable host. *)

Section Worked.

(** C1, the claim as stated fails: [\,] inside a group is not taken as a
    literal comma, the call throws. *)
Lemma escaped_comma_is_refused :
  fst (extract (host := Sample.host)
         "s:condition:=:[new,like_new\,acceptable]" None Sample.fresh)
  = Throw (InvalidEscapedCharacter ",").
Proof. reflexivity. Qed.

Lemma group_tokens_split_on_recorded_delimiter_witness :
  fst (extract (host := Sample.host)
         "s:condition:=:(new|like_new|acceptable)" None Sample.fresh)
  = Return [{| head := header DataType.string "condition" Operator.eq true;
               delimiter := Some "|"%char;
               value := VStrings ["new"; "like_new"; "acceptable"] |}]
  /\ fst (extract (host := Sample.host) "n:stage:>=:(1|2|3)" None Sample.fresh)
     = Return [{| head := header DataType.number "stage" Operator.gte true;
                  delimiter := Some "|"%char;
                  value := VNumbers [Sample.num 1; Sample.num 2;
                                     Sample.num 3] |}]
  /\ fst (extract (host := Sample.host) "n:stage:>=:7" None Sample.fresh)
     = Return [{| head := header DataType.number "stage" Operator.gte false;
                  delimiter := None; value := VNumber (Sample.num 7) |}].
Proof.
  split; [|split].
  - exact (proj1 (group_tokens_split_on_recorded_delimiter
                    (host := Sample.host) DataType.string false true true
                    "condition" Operator.eq "new|like_new|acceptable" ""
                    None Sample.fresh eq_refl) eq_refl).
  - exact (proj1 (proj2 (group_tokens_split_on_recorded_delimiter
                           (host := Sample.host) DataType.number false true
                           true "stage" Operator.gte "1|2|3" "7" None
                           Sample.fresh eq_refl))
             eq_refl eq_refl eq_refl).
  - exact (proj2 (proj2 (group_tokens_split_on_recorded_delimiter
                           (host := Sample.host) DataType.number false true
                           true "stage" Operator.gte "1|2|3" "7" None
                           Sample.fresh eq_refl))
             eq_refl eq_refl eq_refl).
Defined.

Lemma scalar_date_keeps_raw_text_witness :
  fst (extract (host := Sample.host) "d:posted:=:2024-04-01" None Sample.fresh)
  = Return [{| head := header DataType.date "posted" Operator.eq false;
               delimiter := None; value := VString "2024-04-01" |}].
Proof.
  exact (scalar_date_keeps_raw_text (host := Sample.host)
           "posted" Operator.eq "2024-04-01" None Sample.fresh
           eq_refl eq_refl eq_refl eq_refl).
Defined.

Lemma void_undefined_ends_in_syntax_error_witness :
  fst (extract (host := Sample.host) "v:userId:!:undefined" None Sample.fresh)
  = Throw (JSONSyntaxError "undefined")
  /\ fst (extract (host := Sample.host) "v:userId:!:null" None Sample.fresh)
     = Return [{| head := header DataType.void "userId" Operator.isNot false;
                  delimiter := None; value := VNull |}].
Proof.
  exact (void_undefined_ends_in_syntax_error (host := Sample.host)
           true "userId" None Sample.fresh eq_refl).
Defined.

Lemma unclosed_group_without_text_returns_witness :
  fst (extract (host := Sample.host) "s:forCampusId:=:(" None Sample.fresh)
  = Return []
  /\ fst (extract (host := Sample.host)
            "s:forCampusId:=:(66395abfa6c8f456ce0f1877" None Sample.fresh)
     = Throw UnbalancedBrackets.
Proof.
  destruct (unclosed_group_without_text_returns (host := Sample.host)
              DataType.string "forCampusId" Operator.eq true
              "66395abfa6c8f456ce0f1877" None Sample.fresh eq_refl)
    as [Hempty Htext].
  split; [exact Hempty | exact (Htext eq_refl eq_refl)].
Defined.

Lemma escape_outlives_ordinary_text_witness :
  scan (host := Sample.host) "\q:" Sample.fresh
  = (Return tt,
     {| opts := defaults; buffer := []; filter := empty_filter;
        stack := ["q"; ":"]%char; chr := ":"; escaped := false |})
  /\ fst (scan (host := Sample.host) "\q," Sample.fresh)
     = Throw (InvalidEscapedCharacter ",").
Proof.
  exact (escape_outlives_ordinary_text (host := Sample.host)
           "q" Sample.fresh eq_refl).
Defined.

Lemma escaped_colon_is_value_text_witness :
  fst (extract (host := Sample.host)
         "s:note:=:Special notes include\: details" None Sample.fresh)
  = Return [{| head := header DataType.string "note" Operator.eq false;
               delimiter := None;
               value := VString "Special notes include: details" |}]
  /\ fst (extract (host := Sample.host)
            "s:comment:!~:[message me\:]" None Sample.fresh)
     = Return [{| head := header DataType.string "comment" Operator.notRegex
                            true;
                  delimiter := Some ","%char;
                  value := VStrings ["message me:"] |}].
Proof.
  split.
  - exact (proj1 (escaped_colon_is_value_text (host := Sample.host)
                    DataType.string "note" Operator.eq false false
                    "Special notes include" " details" None Sample.fresh
                    eq_refl) eq_refl eq_refl).
  - exact (proj2 (escaped_colon_is_value_text (host := Sample.host)
                    DataType.string "comment" Operator.notRegex false false
                    "message me" "" None Sample.fresh eq_refl)
             eq_refl eq_refl).
Defined.

(** C8, the claim as stated fails: a range group of three elements, one of
    them not a number, is refused for its values, not for its count. *)
Lemma range_group_with_unparseable_element :
  length (split "," "1,x,3") = 3
  /\ fst (extract (host := Sample.host) "n:price:><:[1,x,3]" None Sample.fresh)
     = Throw InvalidValueTypes.
Proof. split; reflexivity. Qed.

Lemma range_group_arity_witness :
  fst (extract (host := Sample.host)
         "d:posted:><:[2024-04-01,2024-04-30]" None Sample.fresh)
  = Return [{| head := header DataType.date "posted" Operator.between true;
               delimiter := Some ","%char;
               value := VNumbers [Sample.num 1711929600000;
                                  Sample.num 1714435200000] |}].
Proof.
  exact (range_group_arity (host := Sample.host)
           true false false "posted" Operator.between
           "2024-04-01,2024-04-30" None Sample.fresh
           eq_refl eq_refl eq_refl).
Defined.

Lemma headerless_tail_is_dropped_witness :
  extract (host := Sample.host)
    "s:isbn13:=:9783111108346,stray" None Sample.fresh
  = (Return [{| head := header DataType.string "isbn13" Operator.eq false;
                delimiter := None; value := VString "9783111108346" |}],
     {| opts := defaults;
        buffer := [{| head := header DataType.string "isbn13" Operator.eq
                                false;
                      delimiter := None; value := VString "9783111108346" |}];
        filter := empty_filter; stack := ["s"; "t"; "r"; "a"; "y"]%char;
        chr := "y"; escaped := false |}).
Proof.
  apply (headerless_tail_is_dropped (host := Sample.host)
           "s:isbn13:=:9783111108346,stray" None Sample.fresh
           {| opts := defaults;
              buffer := [{| head := header DataType.string "isbn13"
                                      Operator.eq false;
                            delimiter := None;
                            value := VString "9783111108346" |}];
              filter := empty_filter; stack := ["s"; "t"; "r"; "a"; "y"]%char;
              chr := "y"; escaped := false |});
    reflexivity.
Defined.

(** More of [src/app.js]. *)

Example two_clauses :
  Sample.run "s:isbn13:=:9783111108346,s:marking:!=:[pencil,stickers]"
  = Return [{| head := header DataType.string "isbn13" Operator.eq false;
               delimiter := None; value := VString "9783111108346" |};
            {| head := header DataType.string "marking" Operator.ne true;
               delimiter := Some ","%char;
               value := VStrings ["pencil"; "stickers"] |}].
Proof. reflexivity. Qed.

Example three_dates_in_a_range :
  Sample.run "b:admin:=:true,d:posted:><:[2024-04-01,2024-04-30,2024-12-31]"
  = Throw (WrongNumberOfArguments 2 3).
Proof. reflexivity. Qed.

Example text_without_header : Sample.run "hello world" = Return [].
Proof. reflexivity. Qed.

Example unknown_type : Sample.run "z:unknown:=:value" = Throw InvalidType.
Proof. reflexivity. Qed.

Example unknown_operator : Sample.run "s:year:>>:1999" = Throw InvalidOperator.
Proof. reflexivity. Qed.

Example comma_group_keeps_pipes :
  Sample.run "n:stage:>=:[1|2|3]" = Throw InvalidValueTypes.
Proof. reflexivity. Qed.

End Worked.

(** ** Further properties: how clauses compose *)

Section Composition.

Context {host : Host}.

(** [step] assigns [chr] before anything else and never reads it. *)
Lemma step_chr (c : ascii) (x : string) (p : Parser) :
  step c (set_chr x p) = step c p.
Proof. reflexivity. Qed.

(** [step] appends to the list and never reads it. *)
Lemma step_prefixed (b : list FilterQuery) (c : ascii) (p : Parser) :
  step c (prefixed b p) = (fst (step c p), prefixed b (snd (step c p))).
Proof.
  destruct p as [o bf [ty fld op m] stk ch esc].
  unfold step, colon, isValidKey, emit, reset, bind, modify, gets, when, ret,
    throw, push, prefixed.
  cbn -[transform join getFilterType getFilterOperator includes app].
  repeat match goal with
         | |- context [if ?b then _ else _] =>
             destruct b;
             cbn -[transform join getFilterType getFilterOperator includes app]
         | |- context [match transform ?q with
                       | Return _ => _ | Throw _ => _ end] =>
             destruct (transform q);
             cbn -[transform join getFilterType getFilterOperator includes app]
         | |- context [match ?t with Some _ => _ | None => _ end] =>
             destruct t;
             cbn -[transform join getFilterType getFilterOperator includes app]
         end;
    rewrite ?app_assoc; reflexivity.
Qed.

Lemma scan_prefixed (b : list FilterQuery) (str : string) (p : Parser) :
  scan str (prefixed b p) = (fst (scan str p), prefixed b (snd (scan str p))).
Proof.
  revert p; induction str as [|c rest IH]; intro p.
  - reflexivity.
  - cbn [scan]. unfold bind. rewrite step_prefixed.
    destruct (step c p) as [[[]|e] p1]; cbn [fst snd]; [apply IH | reflexivity].
Qed.

Lemma finish_prefixed (b : list FilterQuery) (p : Parser) :
  fst (finish (prefixed b p)) = prepend b (fst (finish p)).
Proof.
  destruct p as [o bf [ty fld op m] stk ch esc].
  unfold finish, emit, bind, modify, gets, when, ret, throw, prefixed.
  cbn -[transform join app truthy].
  repeat match goal with
         | |- context [if ?b then _ else _] =>
             destruct b; cbn -[transform join app truthy]
         | |- context [match transform ?q with
                       | Return _ => _ | Throw _ => _ end] =>
             destruct (transform q); cbn -[transform join app truthy]
         end;
    rewrite ?app_assoc; reflexivity.
Qed.

(** The rest of a call does not depend on [chr]. *)
Lemma rest_chr (str : string) (x : string) (p : Parser) :
  fst ((scan str ;; finish) (set_chr x p)) = fst ((scan str ;; finish) p).
Proof.
  destruct str as [|c rest].
  - destruct p as [o bf [ty fld op m] stk ch esc].
    unfold scan, finish, emit; unfold bind, ret, gets, when, throw.
    cbn -[transform join truthy].
    repeat match goal with
           | |- context [if ?b then _ else _] =>
               destruct b; cbn -[transform join truthy]
           | |- context [match transform ?q with
                         | Return _ => _ | Throw _ => _ end] =>
               destruct (transform q); cbn -[transform join truthy]
           end;
      reflexivity.
  - unfold bind. cbn [scan]. unfold bind. now rewrite step_chr.
Qed.

(** Resuming between two clauses: from an instance with an empty header,
    an empty stack and the flag down, the rest of the call gives what it
    gives on its own, after the descriptors already on the list. *)
Lemma resume (b : list FilterQuery) (c : string) (rest : string)
  (options : option ParserOptions) :
  fst ((scan rest ;; finish)
         {| opts := merged options; buffer := b; filter := empty_filter;
            stack := []; chr := c; escaped := false |})
  = prepend b (fst ((scan rest ;; finish) (start options))).
Proof.
  assert (E : {| opts := merged options; buffer := b; filter := empty_filter;
                 stack := []; chr := c; escaped := false |}
              = set_chr c (prefixed b (start options))).
  { unfold set_chr, prefixed, start; cbn. now rewrite app_nil_r. }
  rewrite E, rest_chr. unfold bind. rewrite scan_prefixed.
  destruct (scan rest (start options)) as [[[]|e] p1]; cbn [fst snd].
  - apply finish_prefixed.
  - reflexivity.
Qed.

Lemma step_separator_emits (pipe : bool) (ty : DataType.t) (key : string)
  (op : Operator.t) (v : string) o b c :
  nonempty v = true ->
  step (separator pipe)
       {| opts := o; buffer := b; filter := header ty key op false;
          stack := list_ascii_of_string v; chr := c; escaped := false |}
  = match transform {| head := header ty key op false; delimiter := None;
                       value := VString v |} with
    | Return q =>
        (Return tt,
         {| opts := o; buffer := b ++ [q]; filter := empty_filter;
            stack := []; chr := ""; escaped := false |})
    | Throw e =>
        (Throw e,
         {| opts := o; buffer := b; filter := header ty key op false;
            stack := list_ascii_of_string v;
            chr := String (separator pipe) ""; escaped := false |})
    end.
Proof.
  intros Hv.
  destruct pipe;
    unfold step, emit, reset, bind, modify, gets, when, ret, throw;
    cbn -[transform join truthy];
    rewrite (is_nil_chars _ Hv); cbn -[transform join truthy];
    rewrite andb_false_r; cbn -[transform join];
    rewrite join_chars; now destruct (transform _).
Qed.

End Composition.

(** ** Further properties: a call with several clauses *)

Section Clauses.

Context {host : Host}.

(** X1.  A clause without brackets that is followed by a separator gives the
    first descriptor of the result, and the input after the separator is
    parsed as if it stood alone: its descriptors follow in order.  The first
    error, of the clause or of what follows, is the outcome of the whole
    call, and then nothing of the other part is returned. *)
Theorem clause_then_rest
  (ty : DataType.t) (key : string) (op : Operator.t) (v : string)
  (pipe : bool) (rest : string) (options : option ParserOptions) (p : Parser) :
  usable_key options key = true ->
  plain_text v = true -> nonempty v = true ->
  fst (extract (clause ty key op ++ v ++ String (separator pipe) rest)
               options p)
  = followed_by
      (transform {| head := header ty key op false; delimiter := None;
                    value := VString v |})
      (fst (extract rest options p)).
Proof.
  intros Hkey Hv Hne.
  rewrite !extract_start. unfold bind at 1. unfold start at 1.
  rewrite scan_app, (scan_clause _ _ _ _ _ _ Hkey).
  rewrite scan_app, (scan_plain _ _ Hv).
  unfold pushed; cbn [opts buffer filter stack chr escaped app scan].
  unfold bind at 1. rewrite (step_separator_emits _ _ _ _ _ _ _ _ Hne).
  destruct (transform _) as [q|e]; [|reflexivity].
  cbn [app followed_by].
  exact (resume [q] "" rest options).
Qed.

(** X2.  The same for a group: after the closing bracket the rest of the
    input is parsed as if it stood alone, and its descriptors follow the
    group's. *)
Theorem group_then_rest
  (ty : DataType.t) (key : string) (op : Operator.t) (ro rc : bool)
  (body rest : string) (options : option ParserOptions) (p : Parser) :
  usable_key options key = true ->
  group_text body = true ->
  fst (extract (clause ty key op
                ++ String (opening ro) (body ++ String (closing rc) rest))
               options p)
  = followed_by
      (transform {| head := header ty key op true;
                    delimiter := Some (delimiter_of rc);
                    value := VString body |})
      (fst (extract rest options p)).
Proof.
  intros Hkey Hbody.
  rewrite !extract_start. unfold bind at 1. unfold start at 1.
  rewrite scan_app, (scan_clause _ _ _ _ _ _ Hkey).
  cbn [scan]. unfold bind at 1. rewrite step_opening.
  rewrite scan_app, (scan_group body) by first [exact Hbody | reflexivity].
  unfold pushed; cbn [opts buffer filter stack chr escaped app scan].
  unfold bind at 1. rewrite step_closing, join_chars.
  unfold header, set_multi; cbn [type field operator multi].
  destruct (transform _) as [q|e]; [|reflexivity].
  cbn [app followed_by].
  exact (resume [q] "" rest options).
Qed.

(** X3.  A separator that ends no clause is skipped: at the start of the
    input [,] and [|] change nothing.  With X1 and X2, which parse what
    follows a clause as an input of its own, the same holds after a closing
    bracket and after another separator: empty clauses leave no trace in
    the result. *)
Theorem leading_separator_is_skipped
  (pipe : bool) (rest : string) (options : option ParserOptions) (p : Parser) :
  fst (extract (String (separator pipe) rest) options p)
  = fst (extract rest options p).
Proof.
  rewrite !extract_start.
  assert (E : step (separator pipe) (start options)
              = (Return tt, set_chr (String (separator pipe) "") (start options)))
    by now destruct pipe.
  unfold bind at 1. cbn [scan]. unfold bind at 1.
  rewrite E.
  exact (rest_chr rest (String (separator pipe) "") (start options)).
Qed.

(** X4.  Text that no header precedes is not refused: when a separator
    follows it, it comes back as a descriptor without type, field or
    operator whose value is the text, ahead of the descriptors of the rest
    of the input. *)
Theorem text_without_header_before_separator
  (v : string) (pipe : bool) (rest : string)
  (options : option ParserOptions) (p : Parser) :
  plain_text v = true -> nonempty v = true ->
  fst (extract (v ++ String (separator pipe) rest) options p)
  = prepend [{| head := empty_filter; delimiter := None;
                value := VString v |}]
            (fst (extract rest options p)).
Proof.
  intros Hv Hne.
  rewrite !extract_start. unfold bind at 1.
  rewrite scan_app, (scan_plain _ _ Hv).
  unfold pushed, start; cbn [opts buffer filter stack chr escaped app scan].
  unfold bind at 1.
  assert (E : step (separator pipe)
                {| opts := merged options; buffer := [];
                   filter := empty_filter; stack := list_ascii_of_string v;
                   chr := last_chr v ""; escaped := false |}
              = (Return tt,
                 {| opts := merged options;
                    buffer := [{| head := empty_filter; delimiter := None;
                                  value := VString v |}];
                    filter := empty_filter; stack := []; chr := "";
                    escaped := false |})).
  { destruct pipe;
      unfold step, emit, reset, bind, modify, gets, when, ret, throw;
      cbn -[join]; rewrite (is_nil_chars _ Hne); cbn -[join];
      now rewrite join_chars. }
  rewrite E. exact (resume _ "" rest options).
Qed.

End Clauses.

(** ** Further properties: the header of a clause *)

Section Headers.

Context {host : Host}.

Lemma scan_type_tag (ty : DataType.t) (rest : string) o b c0 :
  scan (DataType.value ty ++ ":" ++ rest)
       {| opts := o; buffer := b; filter := empty_filter; stack := [];
          chr := c0; escaped := false |}
  = scan rest
      {| opts := o; buffer := b; filter := set_type (Some ty) empty_filter;
         stack := []; chr := ":"; escaped := false |}.
Proof.
  rewrite scan_app, (scan_plain _ _ (type_tag_plain ty)).
  unfold pushed; cbn [opts buffer filter stack chr escaped app append scan].
  unfold bind. now rewrite colon_type.
Qed.

Lemma scan_field_name (ty : DataType.t) (key rest : string) options b c0 :
  usable_key options key = true ->
  scan (key ++ ":" ++ rest)
       {| opts := merged options; buffer := b;
          filter := set_type (Some ty) empty_filter; stack := [];
          chr := c0; escaped := false |}
  = scan rest
      {| opts := merged options; buffer := b;
         filter := set_field (Some key) (set_type (Some ty) empty_filter);
         stack := []; chr := ":"; escaped := false |}.
Proof.
  intro Hkey. pose proof Hkey as H. unfold usable_key in H.
  rewrite !andb_true_iff in H. destruct H as [[Hplain _] _].
  rewrite scan_app, (scan_plain _ _ Hplain).
  unfold pushed; cbn [opts buffer filter stack chr escaped app append scan].
  unfold bind. now rewrite (colon_field ty key options _ _ Hkey).
Qed.

(** X5.  A first field that is not one of the five type tags ends the call
    at its colon with [is an invalid type], whatever follows: no later
    clause is looked at. *)
Theorem unknown_type_is_refused
  (tag rest : string) (options : option ParserOptions) (p : Parser) :
  plain_text tag = true -> getFilterType tag = None ->
  fst (extract (tag ++ ":" ++ rest) options p) = Throw InvalidType.
Proof.
  intros Htag Hnone.
  rewrite extract_start. unfold bind at 1.
  rewrite scan_app, (scan_plain _ _ Htag).
  unfold pushed, start; cbn [opts buffer filter stack chr escaped app append scan].
  unfold bind at 1.
  unfold step, colon, bind, modify, gets, when, ret, throw;
    cbn -[getFilterType join].
  now rewrite join_chars, Hnone.
Qed.

(** X6.  With a list of allowed keys that has neither [*] nor the field of
    the clause, the call ends at the colon after the field with [is not an
    allowed key], naming the field. *)
Theorem key_outside_whitelist_is_refused
  (ty : DataType.t) (key rest : string)
  (options : option ParserOptions) (p : Parser) :
  plain_text key = true -> allowed options key = false ->
  fst (extract (DataType.value ty ++ ":" ++ key ++ ":" ++ rest) options p)
  = Throw (KeyNotAllowed key).
Proof.
  intros Hkey Hno.
  rewrite extract_start. unfold bind at 1. unfold start.
  rewrite scan_type_tag, scan_app, (scan_plain _ _ Hkey).
  unfold pushed; cbn [opts buffer filter stack chr escaped app append scan].
  unfold bind at 1.
  unfold step, colon, isValidKey, bind, modify, gets, when, ret, throw;
    cbn -[join includes].
  unfold allowed in Hno. now rewrite join_chars, Hno.
Qed.

(** X7.  A third field that is not one of the fourteen operator tokens ends
    the call at its colon with [is an invalid operator]. *)
Theorem unknown_operator_is_refused
  (ty : DataType.t) (key token rest : string)
  (options : option ParserOptions) (p : Parser) :
  usable_key options key = true ->
  plain_text token = true -> getFilterOperator token = None ->
  fst (extract (DataType.value ty ++ ":" ++ key ++ ":" ++ token ++ ":" ++ rest)
               options p)
  = Throw InvalidOperator.
Proof.
  intros Hkey Htoken Hnone.
  assert (Hk : truthy (Some key) = true).
  { apply truthy_nonempty. unfold usable_key in Hkey.
    rewrite !andb_true_iff in Hkey. tauto. }
  rewrite extract_start. unfold bind at 1. unfold start.
  rewrite scan_type_tag, (scan_field_name _ _ _ _ _ _ Hkey).
  rewrite scan_app, (scan_plain _ _ Htoken).
  unfold pushed; cbn [opts buffer filter stack chr escaped app append scan].
  unfold bind at 1.
  unfold step, colon, bind, modify, gets, when, ret, throw;
    cbn -[getFilterOperator join truthy].
  rewrite Hk; cbn -[getFilterOperator join].
  now rewrite join_chars, Hnone.
Qed.

(** X8.  Once type, field and operator are read, a further unescaped colon
    in a value without brackets ends the call with [Unexpected character]:
    a value such as a time of day must escape its colons. *)
Theorem fourth_colon_is_refused
  (ty : DataType.t) (key : string) (op : Operator.t) (v rest : string)
  (options : option ParserOptions) (p : Parser) :
  usable_key options key = true -> plain_text v = true ->
  fst (extract (clause ty key op ++ v ++ ":" ++ rest) options p)
  = Throw UnexpectedCharacter.
Proof.
  intros Hkey Hv.
  assert (Hk : truthy (Some key) = true).
  { apply truthy_nonempty. unfold usable_key in Hkey.
    rewrite !andb_true_iff in Hkey. tauto. }
  rewrite extract_start. unfold bind at 1. unfold start.
  rewrite scan_app, (scan_clause _ _ _ _ _ _ Hkey).
  rewrite scan_app, (scan_plain _ _ Hv).
  unfold pushed; cbn [opts buffer filter stack chr escaped app append scan].
  unfold bind at 1.
  unfold step, colon, bind, modify, gets, when, ret, throw; cbn -[truthy].
  now rewrite Hk.
Qed.

(** X9.  Inside an open group an unescaped colon ends the call with
    [unbalanced parenthesis or brackets], whatever the group holds so
    far. *)
Theorem colon_in_open_group_is_refused
  (ty : DataType.t) (key : string) (op : Operator.t) (ro : bool)
  (body rest : string) (options : option ParserOptions) (p : Parser) :
  usable_key options key = true -> group_text body = true ->
  fst (extract (clause ty key op ++ String (opening ro) (body ++ ":" ++ rest))
               options p)
  = Throw UnbalancedBrackets.
Proof.
  intros Hkey Hbody.
  rewrite extract_start. unfold bind at 1. unfold start.
  rewrite scan_app, (scan_clause _ _ _ _ _ _ Hkey).
  cbn [scan]. unfold bind at 1. rewrite step_opening.
  rewrite scan_app, (scan_group body) by first [exact Hbody | reflexivity].
  reflexivity.
Qed.

(** X10.  A clause that has a type and a field but no operator is refused
    when a separator ends it: the call throws [missing type], naming the
    type tag. *)
Theorem separator_before_operator_is_refused
  (ty : DataType.t) (key v : string) (pipe : bool) (rest : string)
  (options : option ParserOptions) (p : Parser) :
  usable_key options key = true ->
  plain_text v = true -> nonempty v = true ->
  fst (extract (DataType.value ty ++ ":" ++ key ++ ":" ++ v
                ++ String (separator pipe) rest) options p)
  = Throw (MissingOperator ty).
Proof.
  intros Hkey Hv Hne.
  assert (Hk : truthy (Some key) = true).
  { apply truthy_nonempty. unfold usable_key in Hkey.
    rewrite !andb_true_iff in Hkey. tauto. }
  rewrite extract_start. unfold bind at 1. unfold start.
  rewrite scan_type_tag, (scan_field_name _ _ _ _ _ _ Hkey).
  rewrite scan_app, (scan_plain _ _ Hv).
  unfold pushed; cbn [opts buffer filter stack chr escaped app append scan].
  unfold bind at 1.
  destruct pipe;
    unfold step, bind, modify, gets, when, ret, throw; cbn -[truthy];
    rewrite (is_nil_chars _ Hne), Hk; reflexivity.
Qed.

(** X11.  When the input ends after a clause that has a type and a field
    but no operator, the clause goes to the coercer without an operator.  A
    string clause is then refused for its operator; a number clause whose
    text converts is returned, as a descriptor that has no operator. *)
Theorem clause_without_operator_at_end_of_input
  (key v : string) (options : option ParserOptions) (p : Parser) :
  usable_key options key = true ->
  plain_text v = true -> nonempty v = true ->
  fst (extract (DataType.value DataType.string ++ ":" ++ key ++ ":" ++ v)
               options p)
  = Throw (UnexpectedOperatorForString None)
  /\ (isNaN (ToNumber v) = false ->
      fst (extract (DataType.value DataType.number ++ ":" ++ key ++ ":" ++ v)
                   options p)
      = Return [{| head := {| type := Some DataType.number;
                              field := Some key; operator := None;
                              multi := false |};
                   delimiter := None; value := VNumber (ToNumber v) |}]).
Proof.
  intros Hkey Hv Hne.
  assert (Hk : truthy (Some key) = true).
  { apply truthy_nonempty. unfold usable_key in Hkey.
    rewrite !andb_true_iff in Hkey. tauto. }
  split; [|intro Hnan];
    rewrite extract_start; unfold bind at 1; unfold start;
    rewrite scan_type_tag, (scan_field_name _ _ _ _ _ _ Hkey);
    rewrite (scan_plain _ _ Hv);
    unfold pushed; cbn [opts buffer filter stack chr escaped app];
    unfold finish, emit, bind, gets, when, ret, throw;
    cbn -[transform join truthy];
    rewrite (is_nil_chars _ Hne), Hk; cbn -[transform join];
    rewrite join_chars; unfold transform; cbn -[ToNumber isNaN].
  - reflexivity.
  - now rewrite Hnan.
Qed.

End Headers.

(** ** Further properties: what every returned descriptor satisfies *)

Section Results.

Context {host : Host}.

Lemma split_nonempty (sep : ascii) (s : string) : split sep s <> [].
Proof.
  destruct s as [|c r]; cbn; [discriminate|].
  destruct (Ascii.eqb c sep); [discriminate|].
  destruct (split sep r); discriminate.
Qed.

(** A text that splits into one token is that token. *)
Lemma split_single (sep : ascii) (s t : string) :
  split sep s = [t] -> t = s.
Proof.
  revert t; induction s as [|c r IH]; intros t H; cbn in H.
  - now inversion H.
  - destruct (Ascii.eqb c sep).
    + inversion H as [[Ht Hr]]. now destruct (split_nonempty sep r).
    + pose proof (split_nonempty sep r) as Hne.
      destruct (split sep r) as [|tok toks]; [now destruct Hne|].
      inversion H; subst. now rewrite (IH tok eq_refl).
Qed.

Lemma split_by_single (d : option ascii) (s : string) (l : list string) :
  split_by d s = l -> length l = 1 -> l = [s].
Proof.
  intros <- Hlen. destruct d as [sep|]; [|reflexivity]. cbn in *.
  destruct (split sep s) as [|t [|]] eqn:E; try discriminate.
  now rewrite (split_single _ _ _ E).
Qed.

(** What [transform] guarantees of a descriptor it returns. *)
Lemma transform_sound (f q : FilterQuery) (raw : string) :
  value f = VString raw -> transform f = Return q ->
  head q = head f /\ delimiter q = delimiter f
  /\ shaped q = true /\ legal q = true /\ paired q = true.
Proof.
  destruct f as [[ty fld op m] d v]; cbn [value]; intros -> H.
  unfold transform, type_is in H; cbn [value head type operator multi
                                       delimiter field] in H.
  destruct ty as [[]|]; cbn [DataType.value String.eqb Ascii.eqb Bool.eqb] in H.
  - (* string *)
    destruct (forStringTypeOperator op) eqn:Hop; [|discriminate].
    cbn [negb] in H. unfold shaped, legal, paired.
    destruct m; inversion H; subst; cbn; now rewrite ?Hop.
  - (* boolean *)
    destruct (op_is Operator.eq op) eqn:H1, (op_is Operator.ne op) eqn:H2;
      cbn [negb andb] in H; try discriminate;
      (destruct (raw =? "true")%string eqn:Ht;
       [apply String.eqb_eq in Ht; subst raw
       |destruct (raw =? "false")%string eqn:Hf;
        [apply String.eqb_eq in Hf; subst raw | discriminate]]);
      cbn in H; inversion H; subst;
      unfold shaped, legal, paired; cbn; now rewrite ?H1, ?H2.
  - (* number *)
    destruct (existsb isNaN _) eqn:Hnan; [discriminate|].
    destruct m; cbn [negb] in H.
    + unfold check_group in H; cbn [head operator field] in H.
      destruct (isRangeTypeOperator op) eqn:Hr.
      * destruct (length _ =? 2)%nat eqn:Hl; [|discriminate].
        cbn [negb] in H. inversion H; subst.
        unfold shaped, legal, paired; cbn. now rewrite Hnan, Hr, Hl.
      * destruct (hasOneOfRangeTypeOperator op) eqn:Hh; [|discriminate].
        cbn [negb] in H. inversion H; subst.
        unfold shaped, legal, paired; cbn. now rewrite Hnan, Hr, Hh.
    + destruct (map ToNumber _) as [|n [|]] eqn:E; try discriminate.
      inversion H; subst. cbn in Hnan. rewrite orb_false_r in Hnan.
      unfold shaped, legal, paired; cbn. now rewrite Hnan.
  - (* date *)
    destruct (existsb isNaN _) eqn:Hnan; [discriminate|].
    destruct m; cbn [negb] in H.
    + unfold check_group in H; cbn [head operator field] in H.
      destruct (isRangeTypeOperator op) eqn:Hr.
      * destruct (length _ =? 2)%nat eqn:Hl; [|discriminate].
        cbn [negb] in H. inversion H; subst.
        unfold shaped, legal, paired; cbn. now rewrite Hnan, Hr, Hl.
      * destruct (hasOneOfRangeTypeOperator op) eqn:Hh; [|discriminate].
        cbn [negb] in H. inversion H; subst.
        unfold shaped, legal, paired; cbn. now rewrite Hnan, Hr, Hh.
    + destruct (length _ =? 1)%nat eqn:Hl; [|discriminate].
      cbn [negb] in H. inversion H; subst.
      apply Nat.eqb_eq in Hl. rewrite length_map in Hl.
      rewrite (split_by_single d raw _ eq_refl Hl) in Hnan.
      cbn in Hnan. rewrite orb_false_r in Hnan.
      unfold shaped, legal, paired; cbn. now rewrite Hnan.
  - (* void *)
    destruct (op_is Operator.is_ op) eqn:H1, (op_is Operator.isNot op) eqn:H2;
      cbn [negb andb] in H; try discriminate;
      (destruct (raw =? "null")%string eqn:Ht;
       [apply String.eqb_eq in Ht; subst raw
       |destruct (raw =? "undefined")%string eqn:Hf;
        [apply String.eqb_eq in Hf; subst raw | discriminate]]);
      cbn in H; inversion H; subst;
      unfold shaped, legal, paired; cbn; now rewrite ?H1, ?H2.
  - (* no type *)
    inversion H; subst. now unfold shaped, legal, paired.
Qed.

(** A character adds at most one descriptor to the list, the result of
    [transform] on a descriptor [extract] hands it, after those that are
    there. *)
Lemma step_buffer (c : ascii) (p : Parser) :
  buffer (snd (step c p)) = buffer p
  \/ exists f q, handed f /\ transform f = Return q
                 /\ buffer (snd (step c p)) = buffer p ++ [q].
Proof.
  destruct p as [o bf [ty fld op m] stk ch esc].
  unfold step, colon, isValidKey, emit, reset, bind, modify, gets, when, ret,
    throw, push.
  cbn -[transform join getFilterType getFilterOperator includes].
  destruct m, stk, esc;
    repeat match goal with
           | |- context [if ?b then _ else _] =>
               destruct b;
               cbn -[transform join getFilterType getFilterOperator includes]
           | |- context [match transform ?q with
                         | Return _ => _ | Throw _ => _ end] =>
               destruct (transform q) eqn:?;
               cbn -[transform join getFilterType getFilterOperator includes]
           | |- context [match ?t with Some _ => _ | None => _ end] =>
               destruct t;
               cbn -[transform join getFilterType getFilterOperator includes]
           end;
    first [ left; reflexivity
          | right; do 2 eexists; split; [|split; [eassumption|reflexivity]];
            split; [eexists; reflexivity|]; cbn; tauto ].
Qed.

Lemma finish_buffer (p : Parser) (l : list FilterQuery) :
  fst (finish p) = Return l ->
  l = buffer p
  \/ exists f q, handed f /\ transform f = Return q /\ l = buffer p ++ [q].
Proof.
  destruct p as [o bf [ty fld op m] stk ch esc].
  unfold finish, emit, bind, modify, gets, when, ret, throw.
  cbn -[transform join truthy].
  destruct m, stk;
    repeat match goal with
           | |- context [if ?b then _ else _] =>
               destruct b; cbn -[transform join truthy]
           | |- context [match transform ?q with
                         | Return _ => _ | Throw _ => _ end] =>
               destruct (transform q) eqn:?; cbn -[transform join truthy]
           end;
    intro H; inversion H; subst;
    first [ left; reflexivity
          | right; do 2 eexists; split; [|split; [eassumption|reflexivity]];
            split; [eexists; reflexivity|]; cbn; tauto ].
Qed.

(** Hence a property that [transform] gives every descriptor it returns,
    and that holds of the list to begin with, holds of the result list. *)
Lemma scan_Forall (P : FilterQuery -> Prop) (str : string) (p : Parser) :
  (forall f q, handed f -> transform f = Return q -> P q) ->
  Forall P (buffer p) -> Forall P (buffer (snd (scan str p))).
Proof.
  intro HP. revert p; induction str as [|c rest IH]; intros p Hp.
  - exact Hp.
  - cbn [scan]. unfold bind.
    assert (Hstep : Forall P (buffer (snd (step c p)))).
    { destruct (step_buffer c p) as [E|(f & q & Hf & Ht & E)]; rewrite E.
      - exact Hp.
      - apply Forall_app. split; [exact Hp|]. constructor; [|constructor].
        exact (HP f q Hf Ht). }
    destruct (step c p) as [[[]|e] p1]; cbn [snd] in *; [now apply IH | exact Hstep].
Qed.

Lemma extract_Forall (P : FilterQuery -> Prop) (str : string)
  (options : option ParserOptions) (p : Parser) (l : list FilterQuery) :
  (forall f q, handed f -> transform f = Return q -> P q) ->
  fst (extract str options p) = Return l -> Forall P l.
Proof.
  intros HP H. rewrite extract_start in H. unfold bind at 1 in H.
  pose proof (scan_Forall P str (start options) HP (Forall_nil P)) as Hscan.
  destruct (scan str (start options)) as [[[]|e] p1]; cbn [fst snd] in *;
    [|discriminate].
  destruct (finish_buffer p1 l H) as [E|(f & q & Hf & Ht & E)]; subst l.
  - exact Hscan.
  - apply Forall_app. split; [exact Hscan|]. constructor; [|constructor].
    exact (HP f q Hf Ht).
Qed.

(** X12.  Every descriptor of a returned list has the value its declared
    type calls for: a text for a string (a list of texts for a group), a
    boolean, a number that is not NaN (a list of such for a group), a text
    that [Date.parse] accepts for a date without brackets and a list of
    time values, none NaN, for a date group, [null] for void, and the raw
    text when no type was read. *)
Theorem results_are_well_shaped
  (str : string) (options : option ParserOptions) (p : Parser)
  (l : list FilterQuery) :
  fst (extract str options p) = Return l ->
  Forall (fun q => shaped q = true) l.
Proof.
  apply extract_Forall. intros f q [[raw Hraw] _] Ht.
  now destruct (transform_sound f q raw Hraw Ht) as (_ & _ & H & _).
Qed.

(** X13.  Every descriptor of a returned list carries an operator its
    declared type admits: one of [=], [!=], [<>], [<!>], [~], [!~] for a
    string, [=] or [!=] for a boolean, [!!] or [!] for void, a range or list
    operator for a number or date group; and a number or date group under a
    range operator has exactly two elements.  (A number or date without
    brackets is not checked: it can carry any operator, or none.) *)
Theorem results_carry_legal_operators
  (str : string) (options : option ParserOptions) (p : Parser)
  (l : list FilterQuery) :
  fst (extract str options p) = Return l ->
  Forall (fun q => legal q = true /\ paired q = true) l.
Proof.
  apply extract_Forall. intros f q [[raw Hraw] _] Ht.
  now destruct (transform_sound f q raw Hraw Ht) as (_ & _ & _ & H1 & H2).
Qed.

(** X14.  In a returned list a descriptor that is multi carries a
    delimiter, and a delimiter is never anything but [,] or [|]. *)
Theorem results_record_bracket_delimiters
  (str : string) (options : option ParserOptions) (p : Parser)
  (l : list FilterQuery) :
  fst (extract str options p) = Return l ->
  Forall (fun q => delimited q = true) l.
Proof.
  apply extract_Forall. intros f q [[raw Hraw] Hd] Ht.
  destruct (transform_sound f q raw Hraw Ht) as (Hh & Hdel & _).
  unfold delimited. rewrite Hh, Hdel.
  destruct Hd as [[-> ->]|[->| ->]]; reflexivity.
Qed.

(** X15.  The converse fails: a closing bracket that no bracket opened ends
    the clause all the same, and the descriptor comes back with the
    bracket's delimiter although it is not multi. *)
Theorem closing_bracket_without_opening
  (ty : DataType.t) (key : string) (op : Operator.t) (rc : bool)
  (v rest : string) (options : option ParserOptions) (p : Parser) :
  usable_key options key = true -> plain_text v = true ->
  fst (extract (clause ty key op ++ v ++ String (closing rc) rest) options p)
  = followed_by
      (transform {| head := header ty key op false;
                    delimiter := Some (delimiter_of rc);
                    value := VString v |})
      (fst (extract rest options p)).
Proof.
  intros Hkey Hv.
  rewrite !extract_start. unfold bind at 1. unfold start at 1.
  rewrite scan_app, (scan_clause _ _ _ _ _ _ Hkey).
  rewrite scan_app, (scan_plain _ _ Hv).
  unfold pushed; cbn [opts buffer filter stack chr escaped app scan].
  unfold bind at 1. rewrite step_closing, join_chars.
  destruct (transform _) as [q|e]; [|reflexivity].
  cbn [app followed_by].
  exact (resume [q] "" rest options).
Qed.

(** X16.  An opening bracket empties the stack: text that stands between
    the operator's colon and the bracket is dropped, and the clause gives
    what it gives without that text. *)
Theorem text_before_opening_bracket_is_dropped
  (ty : DataType.t) (key : string) (op : Operator.t) (ro : bool)
  (v rest : string) (options : option ParserOptions) (p : Parser) :
  usable_key options key = true -> plain_text v = true ->
  fst (extract (clause ty key op ++ v ++ String (opening ro) rest) options p)
  = fst (extract (clause ty key op ++ String (opening ro) rest) options p).
Proof.
  intros Hkey Hv.
  rewrite !extract_start. unfold bind, start.
  rewrite !(scan_app (clause ty key op)), !(scan_clause _ _ _ _ _ _ Hkey).
  rewrite scan_app, (scan_plain _ _ Hv).
  unfold pushed; cbn [opts buffer filter stack chr escaped app scan].
  unfold bind. now rewrite !step_opening.
Qed.

End Results.

(** ** Further properties: splitting a group *)

Section Groups.

Context {host : Host}.

Lemma concat_split (sep : ascii) (s : string) :
  String.concat (String sep "") (split sep s) = s.
Proof.
  induction s as [|c r IH]; [reflexivity|]. cbn [split].
  pose proof (split_nonempty sep r) as Hne.
  destruct (Ascii.eqb c sep) eqn:E.
  - apply Ascii.eqb_eq in E; subst c.
    destruct (split sep r) as [|t ts]; [now destruct Hne|].
    change (String.concat (String sep "") ("" :: t :: ts))
      with (String sep (String.concat (String sep "") (t :: ts))).
    now rewrite IH.
  - destruct (split sep r) as [|t ts]; [now destruct Hne|].
    destruct ts as [|t' ts'].
    + cbn [String.concat] in *. now rewrite IH.
    + change (String.concat (String sep "") (String c t :: t' :: ts'))
        with (String c (String.concat (String sep "") (t :: t' :: ts'))).
      now rewrite IH.
Qed.

Lemma length_split (sep : ascii) (s : string) :
  length (split sep s) = S (occurrences sep s).
Proof.
  unfold occurrences. induction s as [|c r IH]; [reflexivity|].
  cbn [split list_ascii_of_string List.filter].
  rewrite (Ascii.eqb_sym sep c).
  pose proof (split_nonempty sep r) as Hne.
  destruct (Ascii.eqb c sep); cbn [length]; [now rewrite IH|].
  destruct (split sep r) as [|t ts]; [now destruct Hne|]. exact IH.
Qed.

Lemma split_free (sep : ascii) (t : string) :
  free_of sep t = true -> split sep t = [t].
Proof.
  unfold free_of. induction t as [|c r IH]; [reflexivity|].
  cbn. intro H. apply andb_true_iff in H as [Hc Hr].
  apply negb_true_iff in Hc. rewrite Hc, (IH Hr). reflexivity.
Qed.

Lemma split_free_app (sep : ascii) (t rest : string) :
  free_of sep t = true ->
  split sep (t ++ String sep rest) = t :: split sep rest.
Proof.
  unfold free_of. induction t as [|c r IH]; cbn.
  - intros _. now rewrite Ascii.eqb_refl.
  - intro H. apply andb_true_iff in H as [Hc Hr].
    apply negb_true_iff in Hc. rewrite Hc, (IH Hr). reflexivity.
Qed.

Lemma split_concat (sep : ascii) (tokens : list string) :
  tokens <> [] -> forallb (free_of sep) tokens = true ->
  split sep (String.concat (String sep "") tokens) = tokens.
Proof.
  induction tokens as [|t ts IH]; [congruence|]. intros _ H.
  cbn in H. apply andb_true_iff in H as [Ht Hts].
  destruct ts as [|t' ts'].
  - now apply split_free.
  - change (String.concat (String sep "") (t :: t' :: ts'))
      with (t ++ String sep (String.concat (String sep "") (t' :: ts')))%string.
    rewrite (split_free_app _ _ _ Ht), IH; [reflexivity|discriminate|exact Hts].
Qed.

Lemma group_text_app (s1 s2 : string) :
  group_text (s1 ++ s2) = group_text s1 && group_text s2.
Proof. unfold group_text. now rewrite chars_app, forallb_app. Qed.

Lemma group_text_concat (round : bool) (tokens : list string) :
  forallb group_text tokens = true ->
  group_text (String.concat (String (delimiter_of round) "") tokens) = true.
Proof.
  induction tokens as [|t ts IH]; [reflexivity|]. cbn [forallb].
  intro H. apply andb_true_iff in H as [Ht Hts].
  destruct ts as [|t' ts']; [exact Ht|].
  change (String.concat (String (delimiter_of round) "") (t :: t' :: ts'))
    with (t ++ String (delimiter_of round)
                 (String.concat (String (delimiter_of round) "") (t' :: ts')))%string.
  rewrite group_text_app, Ht.
  change (String (delimiter_of round) ?x)
    with (String (delimiter_of round) "" ++ x)%string.
  rewrite group_text_app, (IH Hts). now destruct round.
Qed.

Lemma transform_string_group (key : string) (op : Operator.t) (d : ascii)
  (body : string) :
  forStringTypeOperator (Some op) = true ->
  transform {| head := header DataType.string key op true;
               delimiter := Some d; value := VString body |}
  = Return {| head := header DataType.string key op true;
              delimiter := Some d; value := VStrings (split d body) |}.
Proof. intro Hop. unfold transform; cbn -[forStringTypeOperator split]. now rewrite Hop. Qed.

(** X17.  A string group is decoded without loss.  Under an operator a
    string admits, the clause comes back with the pieces of the group's
    text between occurrences of the delimiter of its closing bracket: one
    more piece than there are delimiters, empty pieces included, nothing
    trimmed, and joined again by the delimiter they give the text back. *)
Theorem string_group_is_split_without_loss
  (key : string) (op : Operator.t) (ro rc : bool) (body : string)
  (options : option ParserOptions) (p : Parser) :
  usable_key options key = true -> group_text body = true ->
  forStringTypeOperator (Some op) = true ->
  fst (extract (clause DataType.string key op
                ++ String (opening ro) (body ++ String (closing rc) ""))
               options p)
  = Return [{| head := header DataType.string key op true;
               delimiter := Some (delimiter_of rc);
               value := VStrings (split (delimiter_of rc) body) |}]
  /\ String.concat (String (delimiter_of rc) "") (split (delimiter_of rc) body)
     = body
  /\ length (split (delimiter_of rc) body)
     = S (occurrences (delimiter_of rc) body).
Proof.
  intros Hkey Hbody Hop. split; [|split].
  - rewrite (extract_group _ _ _ _ _ _ _ _ Hkey Hbody).
    now rewrite (transform_string_group _ _ _ _ Hop).
  - apply concat_split.
  - apply length_split.
Qed.

(** X18.  Conversely every list of elements can be written as a group: for
    a list that is not empty, of texts made of the characters a group takes
    and free of the delimiter, the clause whose group is the elements joined
    by the delimiter of its closing bracket comes back with exactly that
    list. *)
Theorem string_group_round_trip
  (key : string) (op : Operator.t) (ro rc : bool) (tokens : list string)
  (options : option ParserOptions) (p : Parser) :
  usable_key options key = true ->
  forStringTypeOperator (Some op) = true ->
  tokens <> [] ->
  forallb group_text tokens = true ->
  forallb (free_of (delimiter_of rc)) tokens = true ->
  fst (extract (clause DataType.string key op
                ++ String (opening ro)
                     (String.concat (String (delimiter_of rc) "") tokens
                      ++ String (closing rc) ""))
               options p)
  = Return [{| head := header DataType.string key op true;
               delimiter := Some (delimiter_of rc);
               value := VStrings tokens |}].
Proof.
  intros Hkey Hop Hne Hgroup Hfree.
  rewrite (extract_group _ _ _ _ _ _ _ _ Hkey (group_text_concat rc _ Hgroup)).
  rewrite (transform_string_group _ _ _ _ Hop).
  now rewrite (split_concat _ _ Hne Hfree).
Qed.

End Groups.

(** ** Further properties: one clause of each declared type *)

Section Types.

Context {host : Host}.

(** X19.  A string clause without brackets comes back as it was written:
    type, field, operator and the value text, unchanged, when the operator is
    one of [=], [!=], [<>], [<!>], [~], [!~]; under any of the other eight
    operators the call throws [Unexpected operator], naming it. *)
Theorem string_clause_round_trip
  (key : string) (op : Operator.t) (v : string)
  (options : option ParserOptions) (p : Parser) :
  usable_key options key = true ->
  plain_text v = true -> nonempty v = true ->
  fst (extract (clause DataType.string key op ++ v) options p)
  = if forStringTypeOperator (Some op)
    then Return [{| head := header DataType.string key op false;
                    delimiter := None; value := VString v |}]
    else Throw (UnexpectedOperatorForString (Some op)).
Proof.
  intros Hkey Hv Hne.
  rewrite (extract_scalar _ _ _ _ _ _ Hkey Hv Hne).
  unfold transform; cbn -[forStringTypeOperator].
  now destruct (forStringTypeOperator (Some op)).
Qed.

(** X20.  A boolean clause is accepted under [=] and [!=] only, and only
    with the text [true] or [false], which come back as the two booleans;
    any other operator throws [Unexpected operator], and under [=] or [!=]
    any other text throws [Unexpected value], naming the text. *)
Theorem boolean_clause
  (key : string) (op : Operator.t) (v : string)
  (options : option ParserOptions) (p : Parser) :
  usable_key options key = true ->
  plain_text v = true -> nonempty v = true ->
  fst (extract (clause DataType.boolean key op ++ v) options p)
  = if op_is Operator.eq (Some op) || op_is Operator.ne (Some op)
    then if (v =? "true")%string
         then Return [{| head := header DataType.boolean key op false;
                         delimiter := None; value := VBoolean true |}]
         else if (v =? "false")%string
         then Return [{| head := header DataType.boolean key op false;
                         delimiter := None; value := VBoolean false |}]
         else Throw (UnexpectedValueForBoolean v)
    else Throw (UnexpectedOperatorForBoolean (Some op)).
Proof.
  intros Hkey Hv Hne.
  rewrite (extract_scalar _ _ _ _ _ _ Hkey Hv Hne).
  unfold transform, JSON_parse;
    cbn [value head type_is type header DataType.value String.eqb Ascii.eqb
         Bool.eqb operator].
  destruct (op_is Operator.eq (Some op)), (op_is Operator.ne (Some op));
    cbn [negb andb orb];
    try reflexivity;
    (destruct (v =? "true")%string eqn:Ht;
     [apply String.eqb_eq in Ht; subst v; reflexivity|];
     destruct (v =? "false")%string eqn:Hf;
     [apply String.eqb_eq in Hf; subst v; reflexivity|]; reflexivity).
Qed.

(** X21.  A void clause is refused under every operator but [!!] and [!]
    (the message, [expects true|false], names the value text), and under
    those two with any text but [null] and [undefined] ([Unexpected value],
    naming the text). *)
Theorem void_clause_refusals
  (key : string) (op : Operator.t) (v : string)
  (options : option ParserOptions) (p : Parser) :
  usable_key options key = true ->
  plain_text v = true -> nonempty v = true ->
  (op_is Operator.is_ (Some op) || op_is Operator.isNot (Some op) = false ->
   fst (extract (clause DataType.void key op ++ v) options p)
   = Throw (InvalidVoidOperator v))
  /\ (op_is Operator.is_ (Some op) || op_is Operator.isNot (Some op) = true ->
      (v =? "null")%string = false -> (v =? "undefined")%string = false ->
      fst (extract (clause DataType.void key op ++ v) options p)
      = Throw (UnexpectedValueForBoolean v)).
Proof.
  intros Hkey Hv Hne.
  rewrite (extract_scalar _ _ _ _ _ _ Hkey Hv Hne).
  unfold transform;
    cbn [value head type_is type header DataType.value String.eqb Ascii.eqb
         Bool.eqb operator].
  split.
  - intro Hop. apply orb_false_iff in Hop as [-> ->]. reflexivity.
  - intros Hop Hnull Hundef. rewrite Hnull, Hundef.
    destruct (op_is Operator.is_ (Some op)), (op_is Operator.isNot (Some op));
      try discriminate; reflexivity.
Qed.

(** X22.  A number or date group whose elements all convert is refused
    under an operator that is neither a range nor a list operator ([~],
    [!~], [!!], [!]): the call throws [Invalid operator type], naming the
    operator and the field.  Without brackets the same clause is accepted
    (C2): the operator of a number without brackets is not looked at. *)
Theorem numeric_group_operator_is_checked
  (is_date ro rc : bool) (key : string) (op : Operator.t) (body : string)
  (options : option ParserOptions) (p : Parser) :
  usable_key options key = true -> group_text body = true ->
  existsb isNaN (map (token_value is_date) (split (delimiter_of rc) body))
  = false ->
  isRangeTypeOperator (Some op) = false ->
  hasOneOfRangeTypeOperator (Some op) = false ->
  fst (extract (clause (numeric is_date) key op
                ++ String (opening ro) (body ++ String (closing rc) ""))
               options p)
  = Throw (InvalidOperatorForKey (Some op) (Some key)).
Proof.
  intros Hkey Hbody Hnan Hr Hl.
  rewrite (extract_group _ _ _ _ _ _ _ _ Hkey Hbody).
  rewrite transform_numeric_group, Hnan.
  unfold check_group; cbn [head operator field header].
  now rewrite Hr, Hl.
Qed.

End Types.

(** ** Further properties: the registries *)

Section Registries.

Context {host : Host}.

(** X23.  The registries are looked up by the whole token: a text is
    recognised as an operator (a type) exactly when it is that operator's
    (that type's) token, so that [!], [!!], [!~] and [!=] never stand for
    one another and no token is shadowed by an earlier entry. *)
Theorem registry_lookup_is_exact :
  (forall (token : string) (op : Operator.t),
     getFilterOperator token = Some op <-> token = Operator.value op)
  /\ (forall (tag : string) (ty : DataType.t),
        getFilterType tag = Some ty <-> tag = DataType.value ty).
Proof.
  split; intros s x; split.
  - intro H. apply find_some in H as [_ H]. apply String.eqb_eq in H. now subst.
  - intros ->. apply getFilterOperator_value.
  - intro H. apply find_some in H as [_ H]. apply String.eqb_eq in H. now subst.
  - intros ->. apply getFilterType_value.
Qed.

End Registries.

(** ** Further properties: from the parser to the query builder *)

Section Pipeline.

Context {host : Host}.

(** X24.  [builder] has a case for each of the fourteen operators: it
    throws [Unsupported operator] on the descriptors that have no operator,
    and on no other. *)
Theorem builder_supports_every_operator (q : FilterQuery) :
  (exists o, builder q = UnsupportedOperator o) <-> operator (head q) = None.
Proof.
  unfold builder, bounds, exp1. split.
  - intros [o H]. destruct (operator (head q)) as [[]|]; [..|reflexivity];
      repeat match type of H with
             | context [if ?b then _ else _] => destruct b
             | context [match ?t with Some _ => _ | None => _ end] => destruct t
             end; discriminate.
  - intros ->. now exists None.
Qed.

(** X25.  A number or date range of two elements that convert becomes a
    pair of strict bounds on the field, in the order of the input: greater
    than the first and less than the second under [$and] for [><], less
    than the first or greater than the second under [$or] for [>!<]. *)
Theorem range_clause_builds_two_bounds
  (is_date ro rc negated : bool) (key body a b : string)
  (options : option ParserOptions) (p : Parser) :
  usable_key options key = true -> group_text body = true ->
  split (delimiter_of rc) body = [a; b] ->
  isNaN (token_value is_date a) = false ->
  isNaN (token_value is_date b) = false ->
  build_all
    (fst (extract (clause (numeric is_date) key
                     (if negated then Operator.notBetween else Operator.between)
                   ++ String (opening ro) (body ++ String (closing rc) ""))
                  options p))
  = Some [Built_query
            (if negated
             then Junction "$or"
                    [Compare (Some key) "$lt"
                       (Defined (VNumber (token_value is_date a)));
                     Compare (Some key) "$gt"
                       (Defined (VNumber (token_value is_date b)))]
             else Junction "$and"
                    [Compare (Some key) "$gt"
                       (Defined (VNumber (token_value is_date a)));
                     Compare (Some key) "$lt"
                       (Defined (VNumber (token_value is_date b)))])].
Proof.
  intros Hkey Hbody Hsplit Ha Hb.
  rewrite (extract_group _ _ _ _ _ _ _ _ Hkey Hbody).
  rewrite transform_range_group by now destruct negated.
  rewrite Hsplit. cbn [map existsb length Nat.eqb]. rewrite Ha, Hb. cbn [orb].
  now destruct negated.
Qed.

(** X26.  A number or date group under one of the six comparisons becomes
    one comparison per element, in order, joined by [$or] when the group was
    closed by [)] and by [$and] when it was closed by []]. *)
Theorem comparison_group_builds_a_junction
  (is_date ro rc : bool) (key body name : string) (op : Operator.t)
  (options : option ParserOptions) (p : Parser) :
  usable_key options key = true -> group_text body = true ->
  comparison op = Some name ->
  existsb isNaN (map (token_value is_date) (split (delimiter_of rc) body))
  = false ->
  build_all
    (fst (extract (clause (numeric is_date) key op
                   ++ String (opening ro) (body ++ String (closing rc) ""))
                  options p))
  = Some [Built_query
            (Junction (if rc then "$or" else "$and")
               (map (fun n => Compare (Some key) name (Defined (VNumber n)))
                    (map (token_value is_date)
                         (split (delimiter_of rc) body))))].
Proof.
  intros Hkey Hbody Hname Hnan.
  rewrite (extract_group _ _ _ _ _ _ _ _ Hkey Hbody).
  rewrite (transform_list_group _ _ _ _ _) by
    first [exact Hnan | now destruct op].
  cbn [single build_all map]. unfold builder, exp1.
  cbn [head operator multi field header negb value delimiter elements].
  destruct op; try discriminate; inversion Hname; subst;
    rewrite map_map; now destruct rc.
Qed.

(** X27.  A boolean group passes the parser and breaks the builder: under
    [=] or [!=] a group whose text is [true] or [false] comes back as a
    multi descriptor whose value is a boolean, not a list, and [builder]
    ends in a [TypeError] on it. *)
Theorem boolean_group_breaks_the_builder
  (ro rc negated truth : bool) (key : string)
  (options : option ParserOptions) (p : Parser) :
  usable_key options key = true ->
  fst (extract (clause DataType.boolean key
                  (if negated then Operator.ne else Operator.eq)
                ++ String (opening ro)
                     ((if truth then "true" else "false")
                      ++ String (closing rc) ""))
               options p)
  = Return [{| head := header DataType.boolean key
                         (if negated then Operator.ne else Operator.eq) true;
               delimiter := Some (delimiter_of rc);
               value := VBoolean truth |}]
  /\ builder {| head := header DataType.boolean key
                          (if negated then Operator.ne else Operator.eq) true;
                delimiter := Some (delimiter_of rc);
                value := VBoolean truth |}
     = BuilderTypeError.
Proof.
  intro Hkey. split.
  - rewrite (extract_group _ _ _ _ _ _ _ _ Hkey)
      by now destruct truth.
    now destruct negated, truth.
  - now destruct negated.
Qed.

End Pipeline.

(** ** Worked inputs for the further properties *)

Section WorkedFurther.

Lemma clause_then_rest_witness :
  fst (extract (host := Sample.host)
         "s:isbn13:=:9783111108346,s:marking:!=:[pencil,stickers]"
         None Sample.fresh)
  = Return [{| head := header DataType.string "isbn13" Operator.eq false;
               delimiter := None; value := VString "9783111108346" |};
            {| head := header DataType.string "marking" Operator.ne true;
               delimiter := Some ","%char;
               value := VStrings ["pencil"; "stickers"] |}].
Proof.
  exact (clause_then_rest (host := Sample.host)
           DataType.string "isbn13" Operator.eq "9783111108346" false
           "s:marking:!=:[pencil,stickers]" None Sample.fresh
           eq_refl eq_refl eq_refl).
Defined.

Lemma group_then_rest_witness :
  fst (extract (host := Sample.host)
         "s:cover:!=:[fair]|s:binding:=:intact" None Sample.fresh)
  = Return [{| head := header DataType.string "cover" Operator.ne true;
               delimiter := Some ","%char; value := VStrings ["fair"] |};
            {| head := header DataType.string "binding" Operator.eq false;
               delimiter := None; value := VString "intact" |}].
Proof.
  exact (group_then_rest (host := Sample.host)
           DataType.string "cover" Operator.ne false false "fair"
           "|s:binding:=:intact" None Sample.fresh eq_refl eq_refl).
Defined.

Lemma text_without_header_before_separator_witness :
  fst (extract (host := Sample.host) "stray,b:admin:=:true" None Sample.fresh)
  = Return [{| head := empty_filter; delimiter := None;
               value := VString "stray" |};
            {| head := header DataType.boolean "admin" Operator.eq false;
               delimiter := None; value := VBoolean true |}].
Proof.
  exact (text_without_header_before_separator (host := Sample.host)
           "stray" false "b:admin:=:true" None Sample.fresh eq_refl eq_refl).
Defined.

Lemma unknown_type_is_refused_witness :
  fst (extract (host := Sample.host) "z:unknown:=:value" None Sample.fresh)
  = Throw InvalidType.
Proof.
  exact (unknown_type_is_refused (host := Sample.host)
           "z" "unknown:=:value" None Sample.fresh eq_refl eq_refl).
Defined.

Lemma key_outside_whitelist_is_refused_witness :
  fst (extract (host := Sample.host) "s:marking:!=:[pencil,stickers]"
         (Some {| allowedKeys := ["isbn13"] |}) Sample.fresh)
  = Throw (KeyNotAllowed "marking").
Proof.
  exact (key_outside_whitelist_is_refused (host := Sample.host)
           DataType.string "marking" "!=:[pencil,stickers]"
           (Some {| allowedKeys := ["isbn13"] |}) Sample.fresh
           eq_refl eq_refl).
Defined.

Lemma unknown_operator_is_refused_witness :
  fst (extract (host := Sample.host) "s:year:>>:1999" None Sample.fresh)
  = Throw InvalidOperator.
Proof.
  exact (unknown_operator_is_refused (host := Sample.host)
           DataType.string "year" ">>" "1999" None Sample.fresh
           eq_refl eq_refl eq_refl).
Defined.

Lemma fourth_colon_is_refused_witness :
  fst (extract (host := Sample.host) "s:note:=:Special notes include: details"
         None Sample.fresh)
  = Throw UnexpectedCharacter.
Proof.
  exact (fourth_colon_is_refused (host := Sample.host)
           DataType.string "note" Operator.eq "Special notes include"
           " details" None Sample.fresh eq_refl eq_refl).
Defined.

Lemma colon_in_open_group_is_refused_witness :
  fst (extract (host := Sample.host) "s:comment:!~:[message me:]"
         None Sample.fresh)
  = Throw UnbalancedBrackets.
Proof.
  exact (colon_in_open_group_is_refused (host := Sample.host)
           DataType.string "comment" Operator.notRegex false "message me" "]"
           None Sample.fresh eq_refl eq_refl).
Defined.

Lemma separator_before_operator_is_refused_witness :
  fst (extract (host := Sample.host)
         "s:isbn13:=9783111108346,s:marking:!=:[pencil]" None Sample.fresh)
  = Throw (MissingOperator DataType.string).
Proof.
  exact (separator_before_operator_is_refused (host := Sample.host)
           DataType.string "isbn13" "=9783111108346" false
           "s:marking:!=:[pencil]" None Sample.fresh eq_refl eq_refl eq_refl).
Defined.

Lemma clause_without_operator_at_end_of_input_witness :
  fst (extract (host := Sample.host) "s:stage:5" None Sample.fresh)
  = Throw (UnexpectedOperatorForString None)
  /\ fst (extract (host := Sample.host) "n:stage:5" None Sample.fresh)
     = Return [{| head := {| type := Some DataType.number;
                             field := Some "stage"; operator := None;
                             multi := false |};
                  delimiter := None; value := VNumber (Sample.num 5) |}].
Proof.
  destruct (clause_without_operator_at_end_of_input (host := Sample.host)
              "stage" "5" None Sample.fresh eq_refl eq_refl eq_refl)
    as [Hstring Hnumber].
  split; [exact Hstring | exact (Hnumber eq_refl)].
Defined.

Lemma results_are_well_shaped_witness :
  Forall (fun q => shaped (host := Sample.host) q = true)
    [{| head := header DataType.boolean "admin" Operator.eq false;
        delimiter := None; value := VBoolean true |};
     {| head := header DataType.number "price" Operator.notBetween true;
        delimiter := Some ","%char;
        value := VNumbers [Sample.num 0; Sample.num 99] |}].
Proof.
  exact (results_are_well_shaped (host := Sample.host)
           "b:admin:=:true,n:price:>!<:[0,99]" None Sample.fresh
           [{| head := header DataType.boolean "admin" Operator.eq false;
               delimiter := None; value := VBoolean true |};
            {| head := header DataType.number "price" Operator.notBetween true;
               delimiter := Some ","%char;
               value := VNumbers [Sample.num 0; Sample.num 99] |}]
           eq_refl).
Defined.

Lemma results_carry_legal_operators_witness :
  Forall (fun q => legal (host := Sample.host) q = true
                   /\ paired (host := Sample.host) q = true)
    [{| head := header DataType.boolean "admin" Operator.eq false;
        delimiter := None; value := VBoolean true |};
     {| head := header DataType.number "price" Operator.notBetween true;
        delimiter := Some ","%char;
        value := VNumbers [Sample.num 0; Sample.num 99] |}].
Proof.
  exact (results_carry_legal_operators (host := Sample.host)
           "b:admin:=:true,n:price:>!<:[0,99]" None Sample.fresh
           [{| head := header DataType.boolean "admin" Operator.eq false;
               delimiter := None; value := VBoolean true |};
            {| head := header DataType.number "price" Operator.notBetween true;
               delimiter := Some ","%char;
               value := VNumbers [Sample.num 0; Sample.num 99] |}]
           eq_refl).
Defined.

Lemma results_record_bracket_delimiters_witness :
  Forall (fun q => delimited (host := Sample.host) q = true)
    [{| head := header DataType.boolean "admin" Operator.eq false;
        delimiter := None; value := VBoolean true |};
     {| head := header DataType.number "price" Operator.notBetween true;
        delimiter := Some ","%char;
        value := VNumbers [Sample.num 0; Sample.num 99] |}].
Proof.
  exact (results_record_bracket_delimiters (host := Sample.host)
           "b:admin:=:true,n:price:>!<:[0,99]" None Sample.fresh
           [{| head := header DataType.boolean "admin" Operator.eq false;
               delimiter := None; value := VBoolean true |};
            {| head := header DataType.number "price" Operator.notBetween true;
               delimiter := Some ","%char;
               value := VNumbers [Sample.num 0; Sample.num 99] |}]
           eq_refl).
Defined.

Lemma closing_bracket_without_opening_witness :
  fst (extract (host := Sample.host) "s:binding:=:intact]" None Sample.fresh)
  = Return [{| head := header DataType.string "binding" Operator.eq false;
               delimiter := Some ","%char; value := VString "intact" |}].
Proof.
  exact (closing_bracket_without_opening (host := Sample.host)
           DataType.string "binding" Operator.eq false "intact" ""
           None Sample.fresh eq_refl eq_refl).
Defined.

Lemma text_before_opening_bracket_is_dropped_witness :
  fst (extract (host := Sample.host) "s:marking:!=:any of[pencil,stickers]"
         None Sample.fresh)
  = fst (extract (host := Sample.host) "s:marking:!=:[pencil,stickers]"
           None Sample.fresh).
Proof.
  exact (text_before_opening_bracket_is_dropped (host := Sample.host)
           DataType.string "marking" Operator.ne false "any of"
           "pencil,stickers]" None Sample.fresh eq_refl eq_refl).
Defined.

Lemma string_group_is_split_without_loss_witness :
  fst (extract (host := Sample.host) "s:tags:<>:[a,,b ]" None Sample.fresh)
  = Return [{| head := header DataType.string "tags" Operator.in_ true;
               delimiter := Some ","%char;
               value := VStrings ["a"; ""; "b "] |}]
  /\ String.concat "," ["a"; ""; "b "] = "a,,b "
  /\ length ["a"; ""; "b "] = 3.
Proof.
  exact (string_group_is_split_without_loss (host := Sample.host)
           "tags" Operator.in_ false false "a,,b " None Sample.fresh
           eq_refl eq_refl eq_refl).
Defined.

Lemma string_group_round_trip_witness :
  fst (extract (host := Sample.host)
         "s:condition:=:(new|like_new|acceptable)" None Sample.fresh)
  = Return [{| head := header DataType.string "condition" Operator.eq true;
               delimiter := Some "|"%char;
               value := VStrings ["new"; "like_new"; "acceptable"] |}].
Proof.
  refine (string_group_round_trip (host := Sample.host)
            "condition" Operator.eq true true
            ["new"; "like_new"; "acceptable"] None Sample.fresh
            eq_refl eq_refl _ eq_refl eq_refl).
  discriminate.
Defined.

Lemma string_clause_round_trip_witness :
  fst (extract (host := Sample.host) "s:binding:=:intact" None Sample.fresh)
  = Return [{| head := header DataType.string "binding" Operator.eq false;
               delimiter := None; value := VString "intact" |}].
Proof.
  exact (string_clause_round_trip (host := Sample.host)
           "binding" Operator.eq "intact" None Sample.fresh
           eq_refl eq_refl eq_refl).
Defined.

Lemma boolean_clause_witness :
  fst (extract (host := Sample.host) "b:verified:=:yes" None Sample.fresh)
  = Throw (UnexpectedValueForBoolean "yes").
Proof.
  exact (boolean_clause (host := Sample.host)
           "verified" Operator.eq "yes" None Sample.fresh
           eq_refl eq_refl eq_refl).
Defined.

Lemma void_clause_refusals_witness :
  fst (extract (host := Sample.host) "v:userId:=:null" None Sample.fresh)
  = Throw (InvalidVoidOperator "null")
  /\ fst (extract (host := Sample.host) "v:userId:!:none" None Sample.fresh)
     = Throw (UnexpectedValueForBoolean "none").
Proof.
  split.
  - exact (proj1 (void_clause_refusals (host := Sample.host)
                    "userId" Operator.eq "null" None Sample.fresh
                    eq_refl eq_refl eq_refl) eq_refl).
  - exact (proj2 (void_clause_refusals (host := Sample.host)
                    "userId" Operator.isNot "none" None Sample.fresh
                    eq_refl eq_refl eq_refl) eq_refl eq_refl eq_refl).
Defined.

Lemma numeric_group_operator_is_checked_witness :
  fst (extract (host := Sample.host) "n:stage:~:[1,2]" None Sample.fresh)
  = Throw (InvalidOperatorForKey (Some Operator.regex) (Some "stage")).
Proof.
  exact (numeric_group_operator_is_checked (host := Sample.host)
           false false false "stage" Operator.regex "1,2" None Sample.fresh
           eq_refl eq_refl eq_refl eq_refl eq_refl).
Defined.

Lemma range_clause_builds_two_bounds_witness :
  build_all
    (fst (extract (host := Sample.host) "n:price:>!<:[0,99]" None Sample.fresh))
  = Some [Built_query
            (Junction "$or"
               [Compare (Some "price") "$lt" (Defined (VNumber (Sample.num 0)));
                Compare (Some "price") "$gt"
                  (Defined (VNumber (Sample.num 99)))])].
Proof.
  exact (range_clause_builds_two_bounds (host := Sample.host)
           false false false true "price" "0,99" "0" "99" None Sample.fresh
           eq_refl eq_refl eq_refl eq_refl eq_refl).
Defined.

Lemma comparison_group_builds_a_junction_witness :
  build_all
    (fst (extract (host := Sample.host) "n:stage:>=:(1|2)" None Sample.fresh))
  = Some [Built_query
            (Junction "$or"
               [Compare (Some "stage") "$gte" (Defined (VNumber (Sample.num 1)));
                Compare (Some "stage") "$gte"
                  (Defined (VNumber (Sample.num 2)))])].
Proof.
  exact (comparison_group_builds_a_junction (host := Sample.host)
           false true true "stage" "1|2" "$gte" Operator.gte None Sample.fresh
           eq_refl eq_refl eq_refl eq_refl).
Defined.

Lemma boolean_group_breaks_the_builder_witness :
  fst (extract (host := Sample.host) "b:admin:=:[true]" None Sample.fresh)
  = Return [{| head := header DataType.boolean "admin" Operator.eq true;
               delimiter := Some ","%char; value := VBoolean true |}]
  /\ builder (host := Sample.host)
       {| head := header DataType.boolean "admin" Operator.eq true;
          delimiter := Some ","%char; value := VBoolean true |}
     = BuilderTypeError.
Proof.
  exact (boolean_group_breaks_the_builder (host := Sample.host)
           false false false true "admin" None Sample.fresh eq_refl).
Defined.

End WorkedFurther.

(** ** Further properties: separators in values *)

Section Separators.

Context {host : Host}.

Lemma separator_free_join (stk : list ascii) :
  separator_free (join stk) = forallb no_separator stk.
Proof.
  unfold separator_free, join. now rewrite list_ascii_of_string_of_list_ascii.
Qed.

Ltac step_cases :=
  repeat match goal with
         | |- context [if ?b then _ else _] =>
             destruct b;
             cbn -[transform join getFilterType getFilterOperator includes]
         | |- context [match transform ?q with
                       | Return _ => _ | Throw _ => _ end] =>
             destruct (transform q);
             cbn -[transform join getFilterType getFilterOperator includes]
         | |- context [match ?t with Some _ => _ | None => _ end] =>
             destruct t;
             cbn -[transform join getFilterType getFilterOperator includes]
         end.

Lemma step_tidy (c : ascii) (p : Parser) :
  tidy p = true -> tidy (snd (step c p)) = true.
Proof.
  destruct p as [o bf [ty fld op m] stk ch esc]. unfold tidy; cbn.
  intro H.
  unfold step, colon, isValidKey, emit, reset, bind, modify, gets, when, ret,
    throw, push.
  cbn -[transform join getFilterType getFilterOperator includes].
  destruct (Ascii.eqb c ":") eqn:Hcolon.
  - apply Ascii.eqb_eq in Hcolon; subst c.
    destruct m, esc; step_cases; cbn in H |- *;
      try reflexivity; try exact H.
    all: now rewrite forallb_app, H.
  - destruct (Ascii.eqb c "|" || Ascii.eqb c ",") eqn:Hsep;
      cbn -[transform join getFilterType getFilterOperator includes];
      destruct m, esc; step_cases; cbn in H |- *;
      try reflexivity; try exact H.
    all: apply orb_false_iff in Hsep as [Hpipe Hcomma];
      rewrite forallb_app, H; unfold no_separator; cbn;
      now rewrite Hpipe, Hcomma.
Qed.

(** A character adds at most one descriptor, made by [transform] from the
    header and the stack as they stand. *)
Lemma step_emits (c : ascii) (p : Parser) :
  buffer (snd (step c p)) = buffer p
  \/ exists d q,
       transform {| head := filter p; delimiter := d;
                    value := VString (join (stack p)) |} = Return q
       /\ buffer (snd (step c p)) = buffer p ++ [q].
Proof.
  destruct p as [o bf [ty fld op m] stk ch esc].
  unfold step, colon, isValidKey, emit, reset, bind, modify, gets, when, ret,
    throw, push.
  cbn -[transform join getFilterType getFilterOperator includes].
  destruct m, stk, esc;
    repeat match goal with
           | |- context [if ?b then _ else _] =>
               destruct b;
               cbn -[transform join getFilterType getFilterOperator includes]
           | |- context [match transform ?q with
                         | Return _ => _ | Throw _ => _ end] =>
               destruct (transform q) eqn:?;
               cbn -[transform join getFilterType getFilterOperator includes]
           | |- context [match ?t with Some _ => _ | None => _ end] =>
               destruct t;
               cbn -[transform join getFilterType getFilterOperator includes]
           end;
    first [ left; reflexivity
          | right; do 2 eexists; split; [eassumption|reflexivity] ].
Qed.

Lemma finish_emits (p : Parser) (l : list FilterQuery) :
  fst (finish p) = Return l ->
  l = buffer p
  \/ exists d q,
       transform {| head := filter p; delimiter := d;
                    value := VString (join (stack p)) |} = Return q
       /\ l = buffer p ++ [q].
Proof.
  destruct p as [o bf [ty fld op m] stk ch esc].
  unfold finish, emit, bind, modify, gets, when, ret, throw.
  cbn -[transform join truthy].
  destruct m, stk;
    repeat match goal with
           | |- context [if ?b then _ else _] =>
               destruct b; cbn -[transform join truthy]
           | |- context [match transform ?q with
                         | Return _ => _ | Throw _ => _ end] =>
               destruct (transform q) eqn:?; cbn -[transform join truthy]
           end;
    intro H; inversion H; subst;
    first [ left; reflexivity
          | right; do 2 eexists; split; [eassumption|reflexivity] ].
Qed.

(** A value that [transform] leaves as text is the text it was given. *)
Lemma transform_text (f q : FilterQuery) (raw s : string) :
  value f = VString raw -> transform f = Return q ->
  value q = VString s -> s = raw.
Proof.
  destruct f as [[ty fld op m] d v]; cbn [value]; intros -> H.
  unfold transform, check_group in H.
  cbn [value head type_is type operator multi delimiter field] in H.
  repeat match type of H with
         | context [if ?b then _ else _] => destruct b
         | context [match ?o with Return _ => _ | Throw _ => _ end] =>
             destruct o eqn:?
         | context [match ?l with [] => _ | _ :: _ => _ end] => destruct l
         end;
    try discriminate; inversion H; subst; cbn [value with_value];
    intro Hs; try discriminate; try (now inversion Hs).
  all: unfold JSON_parse in *;
    repeat match goal with
           | E : context [if ?b then _ else _] |- _ => destruct b
           end;
    congruence.
Qed.

Lemma emitted_scalar_text (p : Parser) (d : option ascii) (q : FilterQuery) :
  tidy p = true ->
  transform {| head := filter p; delimiter := d;
               value := VString (join (stack p)) |} = Return q ->
  scalar_text_is_separator_free q = true.
Proof.
  intros Ht H. unfold scalar_text_is_separator_free.
  destruct (value q) as [s| | | | |] eqn:Hv; try reflexivity.
  assert (Hs : s = join (stack p))
    by (eapply transform_text; [ | exact H | exact Hv]; reflexivity).
  assert (Hh : head q = filter p)
    by (eapply (transform_keeps_header
                  {| head := filter p; delimiter := d;
                     value := VString (join (stack p)) |}); exact H).
  subst s. now rewrite Hh, separator_free_join.
Qed.

Lemma scan_separator_free (str : string) (p : Parser) :
  tidy p = true ->
  Forall (fun q => scalar_text_is_separator_free q = true) (buffer p) ->
  tidy (snd (scan str p)) = true
  /\ Forall (fun q => scalar_text_is_separator_free q = true)
       (buffer (snd (scan str p))).
Proof.
  revert p; induction str as [|c rest IH]; intros p Ht Hb; [now split|].
  cbn [scan]. unfold bind.
  pose proof (step_tidy c p Ht) as Ht'.
  assert (Hb' : Forall (fun q => scalar_text_is_separator_free q = true)
                  (buffer (snd (step c p)))).
  { destruct (step_emits c p) as [E|(d & q & Hq & E)]; rewrite E; [exact Hb|].
    apply Forall_app. split; [exact Hb|]. constructor; [|constructor].
    exact (emitted_scalar_text p d q Ht Hq). }
  destruct (step c p) as [[[]|e] p1]; cbn [snd] in *; [now apply IH | now split].
Qed.

(** X28.  No value that comes back as text from outside a group holds a
    comma or a pipe: a separator ends the clause, an escaped one ends the
    call, so the value of a string or date clause without brackets cannot
    contain either character. *)
Theorem scalar_text_holds_no_separator
  (str : string) (options : option ParserOptions) (p : Parser)
  (l : list FilterQuery) :
  fst (extract str options p) = Return l ->
  Forall (fun q => scalar_text_is_separator_free q = true) l.
Proof.
  intro H. rewrite extract_start in H. unfold bind at 1 in H.
  destruct (scan_separator_free str (start options) eq_refl (Forall_nil _))
    as [Ht Hb].
  destruct (scan str (start options)) as [[[]|e] p1]; cbn [fst snd] in *;
    [|discriminate].
  destruct (finish_emits p1 l H) as [E|(d & q & Hq & E)]; subst l; [exact Hb|].
  apply Forall_app. split; [exact Hb|]. constructor; [|constructor].
  exact (emitted_scalar_text p1 d q Ht Hq).
Qed.

End Separators.

Section WorkedSeparators.

Lemma scalar_text_holds_no_separator_witness :
  Forall (fun q => scalar_text_is_separator_free (host := Sample.host) q = true)
    [{| head := header DataType.string "isbn13" Operator.eq false;
        delimiter := None; value := VString "9783111108346" |};
     {| head := header DataType.date "posted" Operator.gte false;
        delimiter := None; value := VString "2024-04-01" |}].
Proof.
  exact (scalar_text_holds_no_separator (host := Sample.host)
           "s:isbn13:=:9783111108346|d:posted:>=:2024-04-01" None Sample.fresh
           [{| head := header DataType.string "isbn13" Operator.eq false;
               delimiter := None; value := VString "9783111108346" |};
            {| head := header DataType.date "posted" Operator.gte false;
               delimiter := None; value := VString "2024-04-01" |}]
           eq_refl).
Defined.

End WorkedSeparators.
